(** * first-rn-app: the Google Generative AI integration layer

    A shallow embedding of
      - constants/GoogleAIConfig.ts  (model catalog, credential resolver),
      - services/GoogleAI.ts         (class GoogleAIService),
      - hooks/useGoogleAI.ts         (the React hook and its shared instance),
      - components/GoogleAIDemo.tsx  (the handlers of the demo screen),
    and the properties stated about them.

    JavaScript strings are [string]; number literals are carried unchanged
    (decimal literals as [Q], integer literals as [Z]; the code never computes
    with them).  Effects (the module-level shared instance, React state
    setters, console output, calls into the vendor SDK and into caller
    callbacks) are threaded through a small state-and-exception monad whose
    state carries a chronological event log. *)

From Stdlib Require Import String Ascii List QArith ZArith.
Import ListNotations.
Open Scope string_scope.

Set Implicit Arguments.

(* ================================================================== *)
(** ** JavaScript values used by the code *)

Module Js.

(** A value raised by [throw] or carried by a rejected promise.  The code
    only ever asks [err instanceof Error] and reads [err.message]. *)
Inductive Thrown : Type :=
| Error (message : string)
| NonError (description : string).

(** How an evaluation completes: it returns a value or throws. *)
Inductive Completion (A : Type) : Type :=
| Returned (a : A)
| Threw (e : Thrown).
Arguments Threw {A} e.

(** A promise, seen at the [await] that consumes it: fulfilled or
    rejected. *)
Definition Promise (A : Type) : Type := Completion A.

(** Truthiness of a string: only the empty string is falsy. *)
Definition truthy (s : string) : bool :=
  match s with
  | EmptyString => false
  | String _ _ => true
  end.

(** Truthiness of an optional string field ([undefined] is falsy). *)
Definition truthy_opt (o : option string) : bool :=
  match o with
  | Some s => truthy s
  | None => false
  end.

(** [a || b] on strings, the left operand possibly [undefined]. *)
Definition or_else (o : option string) (d : string) : string :=
  match o with
  | Some s => if truthy s then s else d
  | None => d
  end.

(** [String.prototype.includes]: does [sub] occur in [s] at some offset? *)
Fixpoint includes (s sub : string) : bool :=
  if String.prefix sub s then true
  else match s with
       | EmptyString => false
       | String _ rest => includes rest sub
       end.

(** The mathematical reading of "s contains sub". *)
Definition contains (s sub : string) : Prop :=
  exists before after, s = before ++ sub ++ after.

End Js.

Import Js.

(* ================================================================== *)
(** ** constants/GoogleAIConfig.ts *)

Module GoogleAIConfig.

(** The object literal [GEMINI_MODELS], key by key, in source order. *)
Definition GEMINI_MODELS : list (string * string) :=
  [ ("GEMINI_PRO",           "gemini-pro");
    ("GEMINI_PRO_VISION",    "gemini-pro-vision");
    ("GEMINI_15_PRO",        "gemini-1.5-pro");
    ("GEMINI_15_FLASH",      "gemini-1.5-flash");
    ("GEMINI_20_FLASH",      "gemini-2.0-flash");
    ("GEMINI_20_FLASH_LITE", "gemini-2.0-flash-lite");
    ("GEMINI_20_PRO",        "gemini-2.0-pro") ].

(** Property access [obj.key] / [obj[key]]: [None] is [undefined]. *)
Fixpoint get (obj : list (string * string)) (key : string) : option string :=
  match obj with
  | [] => None
  | (k, v) :: rest => if String.eqb k key then Some v else get rest key
  end.

Definition GOOGLE_AI_API_KEY : string := "YOUR_API_KEY".

Definition GEMINI_PRO : string := "gemini-pro".

Definition DEFAULT_MODEL : string := GEMINI_PRO.

(** [getApiKey]: [process.env.GOOGLE_AI_API_KEY || GOOGLE_AI_API_KEY].  The
    environment variable is the argument; the promise always fulfils. *)
Definition getApiKey (env : option string) : Promise string :=
  Returned (or_else env GOOGLE_AI_API_KEY).

End GoogleAIConfig.

(* ================================================================== *)
(** ** The vendor SDK's data, as far as the code touches it *)

Module Sdk.

Inductive HarmCategory : Type :=
| HARM_CATEGORY_HARASSMENT
| HARM_CATEGORY_HATE_SPEECH
| HARM_CATEGORY_SEXUALLY_EXPLICIT
| HARM_CATEGORY_DANGEROUS_CONTENT.

Inductive HarmBlockThreshold : Type :=
| BLOCK_LOW_AND_ABOVE
| BLOCK_MEDIUM_AND_ABOVE
| BLOCK_ONLY_HIGH
| BLOCK_NONE.

Record SafetySetting : Type := {
  category : HarmCategory;
  threshold : HarmBlockThreshold
}.

(** The [generationConfig] object: every field is optional in
    [GoogleAIConfig]. *)
Record GenerationConfig : Type := {
  temperature : option Q;
  topK : option Z;
  topP : option Q;
  maxOutputTokens : option Z;
  responseMimeType : option string;
  candidateCount : option Z
}.

(** The argument of [genAI.getGenerativeModel]. *)
Record ModelParams : Type := {
  model : string;
  safetySettings : list SafetySetting;
  generationConfig : GenerationConfig
}.

(** [new GoogleGenerativeAI(apiKey)]: the client handle. *)
Record GoogleGenerativeAI : Type := {
  apiKey : string
}.

(** The model handle bound by [getGenerativeModel]. *)
Record GenerativeModel : Type := {
  client : GoogleGenerativeAI;
  params : ModelParams
}.

(** One prior turn of a chat. *)
Record Content : Type := {
  role : string;
  parts : list string
}.

(** The argument of [model.startChat]. *)
Record StartChatParams : Type := {
  history : list Content;
  chatGenerationConfig : GenerationConfig
}.

(** The session handle: the model it was started on and the parameters it
    was started with. *)
Record ChatSession : Type := {
  sessionModel : GenerativeModel;
  sessionParams : StartChatParams
}.

(** [response.text()] returns the text or throws (blocked candidates). *)
Record EnhancedGenerateContentResponse : Type := {
  text : Completion string
}.

(** What [model.generateContent] fulfils with: [result.response] is itself
    awaited. *)
Record GenerateContentResult : Type := {
  response : Promise EnhancedGenerateContentResponse
}.

(** How an async iteration ends after its last chunk. *)
Inductive StreamEnd : Type :=
| Exhausted
| Failed (e : Thrown).

(** [result.stream]: the chunks that arrive, then the way it ends. *)
Record AsyncStream : Type := {
  chunks : list EnhancedGenerateContentResponse;
  ending : StreamEnd
}.

Record GenerateContentStreamResult : Type := {
  stream : AsyncStream
}.

(** The vendor service behind a model handle: what a request for a prompt
    settles with. *)
Record Vendor : Type := {
  generateContent : GenerativeModel -> string -> Promise GenerateContentResult;
  generateContentStream :
    GenerativeModel -> string -> Promise GenerateContentStreamResult
}.

End Sdk.

(* ================================================================== *)
(** ** The service object and the world the code runs in *)

Module Service.

(** [interface GoogleAIConfig].  [modelName] is declared [string]; the
    constructor nevertheless guards it with [||], so an absent value is
    representable here as [None]. *)
Record GoogleAIConfig : Type := {
  apiKey : string;
  modelName : option string;
  safetySettings : option (list Sdk.SafetySetting);
  generationConfig : option Sdk.GenerationConfig
}.

(** [interface GenerativeAIResponse]. *)
Record GenerativeAIResponse : Type := {
  text : string;
  error : option string
}.

End Service.

(** The private fields of [class GoogleAIService]. *)
Record GoogleAIService : Type := {
  genAI : Sdk.GoogleGenerativeAI;
  model : Sdk.GenerativeModel;
  modelName : string
}.

(** Everything the code does that an observer can see, in order. *)
Inductive Event : Type :=
| NewGoogleGenerativeAI (key : string)
| GetGenerativeModel (p : Sdk.ModelParams)
| ModelGenerateContent (m : Sdk.GenerativeModel) (prompt : string)
| ModelGenerateContentStream (m : Sdk.GenerativeModel) (prompt : string)
| ModelStartChat (m : Sdk.GenerativeModel) (p : Sdk.StartChatParams)
| ConsoleError (label : string) (e : Thrown)
| OnChunk (chunkText : string)
| SetIsLoading (hook : nat) (b : bool)
| SetIsReady (hook : nat) (b : bool)
| SetError (hook : nat) (e : option string).

(** The mutable world: the module-level [let googleAIService] of the hook
    file, and the chronological log of events (oldest first). *)
Record World : Type := {
  googleAIService : option GoogleAIService;
  log : list Event
}.

(* ================================================================== *)
(** ** A state-and-exception monad for the imperative code *)

Module Eff.

Definition M (A : Type) : Type := World -> Completion A * World.

Definition ret {A} (a : A) : M A := fun w => (Returned a, w).

Definition bind {A B} (m : M A) (f : A -> M B) : M B :=
  fun w =>
    match m w with
    | (Returned a, w') => f a w'
    | (Threw e, w') => (Threw e, w')
    end.

(** [throw e]. *)
Definition throw {A} (e : Thrown) : M A := fun w => (Threw e, w).

(** A completion of a call into code outside the model ([response.text()],
    a caller's callback), or the settlement of an awaited promise. *)
Definition settle {A} (c : Completion A) : M A := fun w => (c, w).

Definition await {A} (p : Promise A) : M A := settle p.

(** [try { m } catch (e) { handler e }]. *)
Definition try_catch {A} (m : M A) (handler : Thrown -> M A) : M A :=
  fun w =>
    match m w with
    | (Returned a, w') => (Returned a, w')
    | (Threw e, w') => handler e w'
    end.

(** [try { m } finally { cleanup }]: the cleanup runs on every path; if it
    throws itself, its exception replaces the pending completion. *)
Definition try_finally {A} (m : M A) (cleanup : M unit) : M A :=
  fun w =>
    match m w with
    | (r, w') =>
        match cleanup w' with
        | (Returned _, w'') => (r, w'')
        | (Threw e, w'') => (Threw e, w'')
        end
    end.

Definition emit (ev : Event) : M unit :=
  fun w =>
    (Returned tt,
     {| googleAIService := googleAIService w; log := log w ++ [ev] |}).

Definition read_googleAIService : M (option GoogleAIService) :=
  fun w => (Returned (googleAIService w), w).

Definition write_googleAIService (s : GoogleAIService) : M unit :=
  fun w => (Returned tt, {| googleAIService := Some s; log := log w |}).

Definition run {A} (m : M A) (w : World) : Completion A * World := m w.

End Eff.

Import Eff.

Notation "x <- m ;; k" := (bind m (fun x => k))
  (at level 61, m at next level, right associativity).
Notation "m ;;; k" := (bind m (fun _ => k))
  (at level 61, right associativity).

(** [err instanceof Error ? err.message : fallback]. *)
Definition message_or (err : Thrown) (fallback : string) : string :=
  match err with
  | Error m => m
  | NonError _ => fallback
  end.

(** A caller-supplied [(text: string) => void]: from inside the model only
    the fact that it was invoked, and whether it threw, is visible. *)
Definition Callback : Type := string -> Completion unit.

Definition invoke (onChunk : Callback) (chunkText : string) : M unit :=
  emit (OnChunk chunkText) ;;; settle (onChunk chunkText).

(* ================================================================== *)
(** ** services/GoogleAI.ts *)

Module GoogleAI.

(** [new GoogleGenerativeAI(apiKey)]. *)
Definition new_GoogleGenerativeAI (key : string) : M Sdk.GoogleGenerativeAI :=
  emit (NewGoogleGenerativeAI key) ;;; ret {| Sdk.apiKey := key |}.

(** [genAI.getGenerativeModel(params)]. *)
Definition getGenerativeModel (g : Sdk.GoogleGenerativeAI) (p : Sdk.ModelParams)
  : M Sdk.GenerativeModel :=
  emit (GetGenerativeModel p) ;;; ret {| Sdk.client := g; Sdk.params := p |}.

(** [model.startChat(params)], as the code relies on it: the vendor hands back
    a session for the parameters it was given.  The vendor's own validation
    of a non-empty history is not part of this model; the statements about
    sessions below are about the history left out, which the vendor takes
    as the empty one. *)
Definition model_startChat (m : Sdk.GenerativeModel) (p : Sdk.StartChatParams)
  : M Sdk.ChatSession :=
  emit (ModelStartChat m p) ;;;
  ret {| Sdk.sessionModel := m; Sdk.sessionParams := p |}.

Definition getDefaultSafetySettings : list Sdk.SafetySetting :=
  [ {| Sdk.category := Sdk.HARM_CATEGORY_HARASSMENT;
       Sdk.threshold := Sdk.BLOCK_MEDIUM_AND_ABOVE |};
    {| Sdk.category := Sdk.HARM_CATEGORY_HATE_SPEECH;
       Sdk.threshold := Sdk.BLOCK_MEDIUM_AND_ABOVE |};
    {| Sdk.category := Sdk.HARM_CATEGORY_SEXUALLY_EXPLICIT;
       Sdk.threshold := Sdk.BLOCK_MEDIUM_AND_ABOVE |};
    {| Sdk.category := Sdk.HARM_CATEGORY_DANGEROUS_CONTENT;
       Sdk.threshold := Sdk.BLOCK_MEDIUM_AND_ABOVE |} ].

(** The [const config] of [getDefaultGenerationConfig]. *)
Definition baseConfig : Sdk.GenerationConfig :=
  {| Sdk.temperature := Some 0.9%Q;
     Sdk.topK := Some 1%Z;
     Sdk.topP := Some 0.95%Q;
     Sdk.maxOutputTokens := Some 2048%Z;
     Sdk.responseMimeType := None;
     Sdk.candidateCount := None |}.

(** [{ ...config, temperature: t, maxOutputTokens: n }]. *)
Definition with_temperature_maxOutputTokens
    (config : Sdk.GenerationConfig) (t : Q) (n : Z) : Sdk.GenerationConfig :=
  {| Sdk.temperature := Some t;
     Sdk.topK := Sdk.topK config;
     Sdk.topP := Sdk.topP config;
     Sdk.maxOutputTokens := Some n;
     Sdk.responseMimeType := Sdk.responseMimeType config;
     Sdk.candidateCount := Sdk.candidateCount config |}.

(** [{ ...config, maxOutputTokens: n }]. *)
Definition with_maxOutputTokens
    (config : Sdk.GenerationConfig) (n : Z) : Sdk.GenerationConfig :=
  {| Sdk.temperature := Sdk.temperature config;
     Sdk.topK := Sdk.topK config;
     Sdk.topP := Sdk.topP config;
     Sdk.maxOutputTokens := Some n;
     Sdk.responseMimeType := Sdk.responseMimeType config;
     Sdk.candidateCount := Sdk.candidateCount config |}.

(** [getDefaultGenerationConfig()]; it reads only [this.modelName], and the
    constructor calls it before [this.model] exists. *)
Definition getDefaultGenerationConfig (this_modelName : string)
  : Sdk.GenerationConfig :=
  let config := baseConfig in
  if includes this_modelName "gemini-2.0" then
    with_temperature_maxOutputTokens config 0.4%Q 8192%Z
  else if includes this_modelName "gemini-1.5" then
    with_maxOutputTokens config 8192%Z
  else config.

(** [constructor(config)]. *)
Definition constructor (config : Service.GoogleAIConfig) : M GoogleAIService :=
  if negb (truthy (Service.apiKey config)) then
    throw (Error "Google AI API key is required")
  else
    this_genAI <- new_GoogleGenerativeAI (Service.apiKey config) ;;
    let this_modelName := or_else (Service.modelName config) "gemini-pro" in
    this_model <-
      getGenerativeModel this_genAI
        {| Sdk.model := this_modelName;
           Sdk.safetySettings :=
             match Service.safetySettings config with
             | Some s => s
             | None => getDefaultSafetySettings
             end;
           Sdk.generationConfig :=
             match Service.generationConfig config with
             | Some g => g
             | None => getDefaultGenerationConfig this_modelName
             end |} ;;
    ret {| genAI := this_genAI; model := this_model; modelName := this_modelName |}.

Section WithVendor.

Variable vendor : Sdk.Vendor.

(** [this.model.generateContent(prompt)], awaited. *)
Definition model_generateContent (m : Sdk.GenerativeModel) (prompt : string)
  : M Sdk.GenerateContentResult :=
  emit (ModelGenerateContent m prompt) ;;;
  await (Sdk.generateContent vendor m prompt).

(** [this.model.generateContentStream(prompt)], awaited. *)
Definition model_generateContentStream (m : Sdk.GenerativeModel) (prompt : string)
  : M Sdk.GenerateContentStreamResult :=
  emit (ModelGenerateContentStream m prompt) ;;;
  await (Sdk.generateContentStream vendor m prompt).

(** [async generateContent(prompt)]. *)
Definition generateContent (this : GoogleAIService) (prompt : string)
  : M Service.GenerativeAIResponse :=
  try_catch
    (result <- model_generateContent (model this) prompt ;;
     response <- await (Sdk.response result) ;;
     text <- settle (Sdk.text response) ;;
     ret {| Service.text := text; Service.error := None |})
    (fun error =>
       emit (ConsoleError "Error generating content:" error) ;;;
       ret {| Service.text := "";
              Service.error := Some (message_or error "Unknown error occurred") |}).

(** [for await (const chunk of stream) body(chunk)]. *)
Fixpoint for_await (chunks : list Sdk.EnhancedGenerateContentResponse)
    (ending : Sdk.StreamEnd)
    (body : Sdk.EnhancedGenerateContentResponse -> M unit) : M unit :=
  match chunks with
  | [] =>
      match ending with
      | Sdk.Exhausted => ret tt
      | Sdk.Failed e => throw e
      end
  | chunk :: rest => body chunk ;;; for_await rest ending body
  end.

(** [async generateContentStream(prompt, onChunk)]. *)
Definition generateContentStream (this : GoogleAIService) (prompt : string)
    (onChunk : Callback) : M unit :=
  try_catch
    (result <- model_generateContentStream (model this) prompt ;;
     for_await (Sdk.chunks (Sdk.stream result)) (Sdk.ending (Sdk.stream result))
       (fun chunk =>
          chunkText <- settle (Sdk.text chunk) ;;
          invoke onChunk chunkText))
    (fun error =>
       emit (ConsoleError "Error in content stream:" error) ;;;
       throw error).

End WithVendor.

(** [startChat(history = [])]. *)
Definition startChat (this : GoogleAIService) (history : option (list Sdk.Content))
  : M Sdk.ChatSession :=
  model_startChat (model this)
    {| Sdk.history := match history with Some h => h | None => [] end;
       Sdk.chatGenerationConfig := getDefaultGenerationConfig (modelName this) |}.

Definition isUsingGemini2Model (this : GoogleAIService) : bool :=
  includes (modelName this) "gemini-2.0".

Definition getCurrentModelName (this : GoogleAIService) : string :=
  modelName this.

End GoogleAI.


(* ================================================================== *)
(** ** hooks/useGoogleAI.ts *)

Module UseGoogleAI.

(** [interface UseGoogleAIProps]. *)
Record UseGoogleAIProps : Type := {
  modelName : option string
}.

(** [props?.modelName]. *)
Definition props_modelName (props : option UseGoogleAIProps) : option string :=
  match props with
  | Some p => modelName p
  | None => None
  end.

(** The three [useState] cells of one mounted hook, identified by [hook]. *)
Definition setIsLoading (hook : nat) (b : bool) : M unit := emit (SetIsLoading hook b).
Definition setIsReady (hook : nat) (b : bool) : M unit := emit (SetIsReady hook b).
Definition setError (hook : nat) (e : option string) : M unit := emit (SetError hook e).

(** The value a [useState] cell holds after a log: its initial value, then
    the argument of the latest setter call of that hook. *)
Fixpoint isLoading_after (hook : nat) (current : bool) (evs : list Event) : bool :=
  match evs with
  | [] => current
  | SetIsLoading h b :: rest =>
      isLoading_after hook (if Nat.eqb h hook then b else current) rest
  | _ :: rest => isLoading_after hook current rest
  end.

Fixpoint isReady_after (hook : nat) (current : bool) (evs : list Event) : bool :=
  match evs with
  | [] => current
  | SetIsReady h b :: rest =>
      isReady_after hook (if Nat.eqb h hook then b else current) rest
  | _ :: rest => isReady_after hook current rest
  end.

Fixpoint error_after (hook : nat) (current : option string) (evs : list Event)
  : option string :=
  match evs with
  | [] => current
  | SetError h e :: rest =>
      error_after hook (if Nat.eqb h hook then e else current) rest
  | _ :: rest => error_after hook current rest
  end.

(** [useState<boolean>(false)], [useState<boolean>(false)],
    [useState<string | null>(null)]. *)
Definition isLoading (hook : nat) (w : World) : bool := isLoading_after hook false (log w).
Definition isReady (hook : nat) (w : World) : bool := isReady_after hook false (log w).
Definition error (hook : nat) (w : World) : option string := error_after hook None (log w).

(** Where [initializeService] stands when it first yields to the event loop:
    it either ran to its end, or it is suspended at [await getApiKey()]. *)
Inductive Suspension : Type :=
| Finished
| AwaitingApiKey (pending : Promise string).

(** [initializeService], from its start to its first suspension point. *)
Definition initializeService_begin (hook : nat) (env : option string) : M Suspension :=
  current <- read_googleAIService ;;
  match current with
  | None => ret (AwaitingApiKey (GoogleAIConfig.getApiKey env))
  | Some _ => setIsReady hook true ;;; ret Finished
  end.

(** [initializeService], from the settlement of [await getApiKey()] to its
    end.  The shared variable is not read again before it is assigned. *)
Definition initializeService_resume (hook : nat) (props : option UseGoogleAIProps)
    (pending : Promise string) : M unit :=
  try_catch
    (apiKey <- await pending ;;
     (if negb (truthy apiKey) then
        throw (Error "Google AI API key is not configured")
      else
        service <-
          GoogleAI.constructor
            {| Service.apiKey := apiKey;
               Service.modelName :=
                 Some (or_else (props_modelName props) GoogleAIConfig.GEMINI_PRO);
               Service.safetySettings := None;
               Service.generationConfig := None |} ;;
        write_googleAIService service) ;;;
     setIsReady hook true)
    (fun err =>
       emit (ConsoleError "Failed to initialize Google AI service:" err) ;;;
       setError hook (Some (message_or err "Failed to initialize Google AI service"))).

Definition continue (hook : nat) (props : option UseGoogleAIProps) (s : Suspension)
  : M unit :=
  match s with
  | Finished => ret tt
  | AwaitingApiKey pending => initializeService_resume hook props pending
  end.

(** One initialization running with nothing else scheduled in between. *)
Definition initializeService (hook : nat) (props : option UseGoogleAIProps)
    (env : option string) : M unit :=
  s <- initializeService_begin hook env ;;
  continue hook props s.

(** Two hooks mounted in one commit: both effects start, each running up to
    its [await], before the event loop resumes either of them. *)
Definition initializeService_overlapped
    (hook1 : nat) (props1 : option UseGoogleAIProps)
    (hook2 : nat) (props2 : option UseGoogleAIProps)
    (env : option string) : M unit :=
  s1 <- initializeService_begin hook1 env ;;
  s2 <- initializeService_begin hook2 env ;;
  continue hook1 props1 s1 ;;;
  continue hook2 props2 s2.

Section WithVendor.

Variable vendor : Sdk.Vendor.

(** [generateResponse(prompt)]. *)
Definition generateResponse (hook : nat) (prompt : string) : M string :=
  current <- read_googleAIService ;;
  match current with
  | None => throw (Error "Google AI service is not initialized")
  | Some service =>
      setIsLoading hook true ;;;
      setError hook None ;;;
      try_finally
        (try_catch
           (response <- GoogleAI.generateContent vendor service prompt ;;
            if truthy_opt (Service.error response) then
              setError hook (Service.error response) ;;;
              ret ""
            else
              ret (Service.text response))
           (fun err =>
              let errorMessage := message_or err "Unknown error occurred" in
              setError hook (Some errorMessage) ;;;
              ret ""))
        (setIsLoading hook false)
  end.

(** [generateResponseStream(prompt, onChunk)]. *)
Definition generateResponseStream (hook : nat) (prompt : string) (onChunk : Callback)
  : M unit :=
  current <- read_googleAIService ;;
  match current with
  | None => throw (Error "Google AI service is not initialized")
  | Some service =>
      setIsLoading hook true ;;;
      setError hook None ;;;
      try_finally
        (try_catch
           (GoogleAI.generateContentStream vendor service prompt onChunk)
           (fun err =>
              let errorMessage := message_or err "Unknown error occurred" in
              setError hook (Some errorMessage)))
        (setIsLoading hook false)
  end.

End WithVendor.

(** [startChatSession()]. *)
Definition startChatSession : M Sdk.ChatSession :=
  current <- read_googleAIService ;;
  match current with
  | None => throw (Error "Google AI service is not initialized")
  | Some service => GoogleAI.startChat service None
  end.

End UseGoogleAI.


(* ================================================================== *)
(** ** components/GoogleAIDemo.tsx *)

Module GoogleAIDemo.

(** The [useState] cells of the component that its handlers read or write,
    and the [Alert.alert(title, message)] calls made so far, oldest first. *)
Record State : Type := {
  selectedModel : string;
  prompt : string;
  response : string;
  streamingResponse : string;
  isStreaming : bool;
  modelInfo : string;
  alerts : list (string * string)
}.

Definition setSelectedModel (v : string) (d : State) : State :=
  {| selectedModel := v; prompt := prompt d; response := response d;
     streamingResponse := streamingResponse d; isStreaming := isStreaming d;
     modelInfo := modelInfo d; alerts := alerts d |}.

Definition setPrompt (v : string) (d : State) : State :=
  {| selectedModel := selectedModel d; prompt := v; response := response d;
     streamingResponse := streamingResponse d; isStreaming := isStreaming d;
     modelInfo := modelInfo d; alerts := alerts d |}.

Definition setResponse (v : string) (d : State) : State :=
  {| selectedModel := selectedModel d; prompt := prompt d; response := v;
     streamingResponse := streamingResponse d; isStreaming := isStreaming d;
     modelInfo := modelInfo d; alerts := alerts d |}.

Definition setStreamingResponse (v : string) (d : State) : State :=
  {| selectedModel := selectedModel d; prompt := prompt d; response := response d;
     streamingResponse := v; isStreaming := isStreaming d;
     modelInfo := modelInfo d; alerts := alerts d |}.

Definition setIsStreaming (v : bool) (d : State) : State :=
  {| selectedModel := selectedModel d; prompt := prompt d; response := response d;
     streamingResponse := streamingResponse d; isStreaming := v;
     modelInfo := modelInfo d; alerts := alerts d |}.

Definition setModelInfo (v : string) (d : State) : State :=
  {| selectedModel := selectedModel d; prompt := prompt d; response := response d;
     streamingResponse := streamingResponse d; isStreaming := isStreaming d;
     modelInfo := v; alerts := alerts d |}.

(** [Alert.alert(title, message)]. *)
Definition alert (title message : string) (d : State) : State :=
  {| selectedModel := selectedModel d; prompt := prompt d; response := response d;
     streamingResponse := streamingResponse d; isStreaming := isStreaming d;
     modelInfo := modelInfo d; alerts := alerts d ++ [(title, message)] |}.

(** The component as first rendered. *)
Definition initial_state : State :=
  {| selectedModel := GoogleAIConfig.GEMINI_PRO; prompt := ""; response := "";
     streamingResponse := ""; isStreaming := false; modelInfo := ""; alerts := [] |}.

Definition info_gemini_20 : string :=
  "✨ Gemini 2.0 Model: Advanced capabilities with 1M token context window, native tool use, and multimodal features.".

Definition info_gemini_15 : string :=
  "✨ Gemini 1.5 Model: Improved capabilities with 1M token context window and multimodal support.".

Definition info_vision : string :=
  "✨ Vision Model: Can process text and images together.".

Definition info_standard : string :=
  "✨ Standard Model: Text-based AI with strong reasoning capabilities.".

(** [updateModelInfo()]. *)
Definition updateModelInfo (d : State) : State :=
  let info :=
    if includes (selectedModel d) "gemini-2.0" then info_gemini_20
    else if includes (selectedModel d) "gemini-1.5" then info_gemini_15
    else if includes (selectedModel d) "gemini-pro-vision" then info_vision
    else info_standard in
  setModelInfo info d.

(** The effect [if (isReady) updateModelInfo()] of one render of the
    component whose hook is [hook]. *)
Definition modelInfoEffect (hook : nat) (d : State) (w : World) : State :=
  if UseGoogleAI.isReady hook w then updateModelInfo d else d.

(** [handleModelChange(model)]. *)
Definition handleModelChange (model : string) (d : State) : State :=
  setSelectedModel model d.

(** [getSamplePrompt()]. *)
Definition getSamplePrompt (d : State) : string :=
  if includes (selectedModel d) "vision" then
    "Describe this image: [Note: Add image capability in your implementation]"
  else if includes (selectedModel d) "gemini-2.0" then
    "Write a short story about artificial intelligence in the year 2050. Include a plot twist at the end."
  else
    "Explain how large language models work in simple terms.".

(** [handleUseSamplePrompt()]. *)
Definition handleUseSamplePrompt (d : State) : State :=
  setPrompt (getSamplePrompt d) d.

(** [disabled={!isReady || isLoading}] of the Generate button. *)
Definition generateDisabled (hook : nat) (w : World) : bool :=
  negb (UseGoogleAI.isReady hook w) || UseGoogleAI.isLoading hook w.

(** [disabled={!isReady || isLoading || isStreaming}] of the Stream button. *)
Definition streamDisabled (hook : nat) (d : State) (w : World) : bool :=
  negb (UseGoogleAI.isReady hook w) || UseGoogleAI.isLoading hook w || isStreaming d.

(** The callback handed to [generateResponseStream]: it applies the update
    [prev => prev + chunk] and scrolls; it never throws. *)
Definition onChunk : Callback := fun _ => Returned tt.

(** The chunk texts of the callback invocations in a stretch of the log. *)
Fixpoint chunkTexts (evs : list Event) : list string :=
  match evs with
  | [] => []
  | OnChunk t :: rest => t :: chunkTexts rest
  | _ :: rest => chunkTexts rest
  end.

(** The functional updates [prev => prev + chunk], applied in order. *)
Definition appendChunks (prev : string) (texts : list string) : string :=
  fold_left (fun acc chunk => acc ++ chunk) texts prev.

Section WithEnvironment.

(** [String.prototype.trim], of which the handlers only ask whether its
    result is empty. *)
Variable trim : string -> string.
Variable vendor : Sdk.Vendor.
Variable hook : nat.

(** [handleGenerateResponse()]. *)
Definition handleGenerateResponse (d : State) (w : World) : State * World :=
  if negb (truthy (trim (prompt d))) then (d, w)
  else
    let d1 := setStreamingResponse "" (setResponse "" d) in
    match UseGoogleAI.generateResponse vendor hook (prompt d) w with
    | (Returned result, w') => (setResponse result d1, w')
    | (Threw err, w') =>
        (alert "Error"
           "Failed to generate response. Please check your API key and try again." d1,
         snd (emit (ConsoleError "Error generating response:" err) w'))
    end.

(** [handleStreamResponse()].  Every invocation of the callback during the
    call is one update of [streamingResponse]. *)
Definition handleStreamResponse (d : State) (w : World) : State * World :=
  if negb (truthy (trim (prompt d))) then (d, w)
  else
    let d1 := setIsStreaming true (setStreamingResponse "" (setResponse "" d)) in
    match UseGoogleAI.generateResponseStream vendor hook (prompt d) onChunk w with
    | (r, w') =>
        let delivered := chunkTexts (skipn (length (log w)) (log w')) in
        let d2 := setStreamingResponse
                    (appendChunks (streamingResponse d1) delivered) d1 in
        match r with
        | Returned _ => (setIsStreaming false d2, w')
        | Threw err =>
            (setIsStreaming false
               (alert "Error"
                  "Failed to stream response. Please check your API key and try again."
                  d2),
             snd (emit (ConsoleError "Error streaming response:" err) w'))
        end
    end.

End WithEnvironment.

End GoogleAIDemo.

(* ================================================================== *)
(** ** Vocabulary of the statements *)

(** A chunk whose [text()] returns [t]. *)
Definition text_chunk (t : string) : Sdk.EnhancedGenerateContentResponse :=
  {| Sdk.text := Returned t |}.

(** What one [generateContent] round trip finally yields: the response text,
    or the failure raised by the request, by [result.response], or by
    [response.text()], whichever comes first. *)
Definition vendor_text (p : Promise Sdk.GenerateContentResult) : Completion string :=
  match p with
  | Threw e => Threw e
  | Returned result =>
      match Sdk.response result with
      | Threw e => Threw e
      | Returned r => Sdk.text r
      end
  end.

(** The loop body of [generateContentStream]. *)
Definition stream_body (onChunk : Callback)
    (chunk : Sdk.EnhancedGenerateContentResponse) : M unit :=
  chunkText <- settle (Sdk.text chunk) ;;
  invoke onChunk chunkText.

(** World [w] extended by the events [evs], the shared instance untouched. *)
Definition logged (w : World) (evs : list Event) : World :=
  {| googleAIService := googleAIService w; log := log w ++ evs |}.


(** The event is not a [setIsLoading] call of [hook]. *)
Definition leaves_isLoading (hook : nat) (ev : Event) : Prop :=
  forall b, ev <> SetIsLoading hook b.

(** A generation configuration a caller might pass at construction. *)
Definition deterministicConfig : Sdk.GenerationConfig :=
  {| Sdk.temperature := Some 0.1%Q;
     Sdk.topK := Some 40%Z;
     Sdk.topP := Some 0.8%Q;
     Sdk.maxOutputTokens := Some 256%Z;
     Sdk.responseMimeType := None;
     Sdk.candidateCount := None |}.

(** A vendor whose every request rejects with [e]. *)
Definition rejecting_vendor (e : Thrown) : Sdk.Vendor :=
  {| Sdk.generateContent := fun _ _ => Threw e;
     Sdk.generateContentStream := fun _ _ => Threw e |}.

(** A vendor that answers every prompt with the text [t], and streams the
    chunks [ts] ending as [ending]. *)
Definition answering_vendor (t : string) (ts : list string) (ending : Sdk.StreamEnd)
  : Sdk.Vendor :=
  {| Sdk.generateContent := fun _ _ =>
       Returned {| Sdk.response := Returned (text_chunk t) |};
     Sdk.generateContentStream := fun _ _ =>
       Returned {| Sdk.stream :=
                     {| Sdk.chunks := map text_chunk ts; Sdk.ending := ending |} |} |}.

(** The world at process start: no shared instance, nothing logged. *)
Definition initial_world : World := {| googleAIService := None; log := [] |}.

(** A service as the hook constructs it for [name] with key [key]. *)
Definition service_for (key name : string) : GoogleAIService :=
  let g := {| Sdk.apiKey := key |} in
  {| genAI := g;
     model := {| Sdk.client := g;
                 Sdk.params :=
                   {| Sdk.model := name;
                      Sdk.safetySettings := GoogleAI.getDefaultSafetySettings;
                      Sdk.generationConfig := GoogleAI.getDefaultGenerationConfig name |} |};
     modelName := name |}.

(** A world in which the hook has already created its shared instance. *)
Definition ready_world : World :=
  {| googleAIService := Some (service_for "k" "gemini-pro"); log := [] |}.

(** The event is not a [setIsReady] call. *)
Definition leaves_isReady (ev : Event) : Prop :=
  match ev with
  | SetIsReady _ _ => False
  | _ => True
  end.

(** The number of requests sent to the vendor in a stretch of the log. *)
Fixpoint vendor_requests (evs : list Event) : nat :=
  match evs with
  | [] => 0
  | ModelGenerateContent _ _ :: rest => S (vendor_requests rest)
  | ModelGenerateContentStream _ _ :: rest => S (vendor_requests rest)
  | _ :: rest => vendor_requests rest
  end.

(** The events a run of [m] from [w] added to the log. *)
Definition added {A} (m : M A) (w : World) : list Event :=
  skipn (length (log w)) (log (snd (run m w))).

(** The worlds the hook's code can produce from process start: any number
    of initializations, begun and resumed in any order and with any
    settlement of the awaited key, and any calls of the three operations. *)
Inductive Reachable : World -> Prop :=
| reach_start : Reachable initial_world
| reach_begin (hook : nat) (env : option string) (w : World) :
    Reachable w ->
    Reachable (snd (run (UseGoogleAI.initializeService_begin hook env) w))
| reach_resume (hook : nat) (props : option UseGoogleAI.UseGoogleAIProps)
    (pending : Promise string) (w : World) :
    Reachable w ->
    Reachable (snd (run (UseGoogleAI.initializeService_resume hook props pending) w))
| reach_generateResponse (vendor : Sdk.Vendor) (hook : nat) (prompt : string)
    (w : World) :
    Reachable w ->
    Reachable (snd (run (UseGoogleAI.generateResponse vendor hook prompt) w))
| reach_generateResponseStream (vendor : Sdk.Vendor) (hook : nat) (prompt : string)
    (onChunk : Callback) (w : World) :
    Reachable w ->
    Reachable (snd (run (UseGoogleAI.generateResponseStream vendor hook prompt onChunk) w))
| reach_startChatSession (w : World) :
    Reachable w ->
    Reachable (snd (run UseGoogleAI.startChatSession w)).

(** One step of the hook's code either leaves a world with a shared
    instance, or changes neither the shared instance nor any hook's
    readiness. *)
Definition instance_or_unchanged (w w' : World) : Prop :=
  (exists service, googleAIService w' = Some service)
  \/ (googleAIService w' = googleAIService w
      /\ forall hook, UseGoogleAI.isReady hook w' = UseGoogleAI.isReady hook w).

(** The three rows of the default-configuration table. *)
Definition config_gemini_20 : Sdk.GenerationConfig :=
  {| Sdk.temperature := Some 0.4%Q; Sdk.topK := Some 1%Z;
     Sdk.topP := Some 0.95%Q; Sdk.maxOutputTokens := Some 8192%Z;
     Sdk.responseMimeType := None; Sdk.candidateCount := None |}.

Definition config_gemini_15 : Sdk.GenerationConfig :=
  {| Sdk.temperature := Some 0.9%Q; Sdk.topK := Some 1%Z;
     Sdk.topP := Some 0.95%Q; Sdk.maxOutputTokens := Some 8192%Z;
     Sdk.responseMimeType := None; Sdk.candidateCount := None |}.

Unset Implicit Arguments.

(* ================================================================== *)
(** ** Strings *)

Lemma prefix_iff_app (sub s : string) :
  String.prefix sub s = true <-> exists after, s = sub ++ after.
Proof.
  revert s; induction sub as [|c sub IH]; intros [|d s]; simpl.
  - split; [exists ""; reflexivity | reflexivity].
  - split; [intros _; eexists; reflexivity | reflexivity].
  - split; [discriminate | intros [after H]; discriminate H].
  - destruct (Ascii.ascii_dec c d) as [->|Hcd].
    + rewrite IH. split; intros [after H]; exists after.
      * now rewrite H.
      * now inversion H.
    + split; [discriminate|]. intros [after H]. inversion H. congruence.
Qed.

Lemma includes_iff_contains (s sub : string) :
  includes s sub = true <-> contains s sub.
Proof.
  unfold contains. induction s as [|c s IH].
  - change (includes "" sub) with (if String.prefix sub "" then true else false).
    destruct (String.prefix sub "") eqn:Hp.
    + split; [intros _|reflexivity].
      apply prefix_iff_app in Hp. destruct Hp as [after H].
      exists "", after. exact H.
    + split; [discriminate|]. intros (before & after & H).
      destruct before; [|discriminate H]. simpl in H.
      assert (String.prefix sub "" = true) as Hq
        by (apply prefix_iff_app; exists after; exact H).
      congruence.
  - change (includes (String c s) sub)
      with (if String.prefix sub (String c s) then true else includes s sub).
    destruct (String.prefix sub (String c s)) eqn:Hp.
    + split; [intros _|reflexivity].
      apply prefix_iff_app in Hp. destruct Hp as [after H].
      exists "", after. exact H.
    + rewrite IH. split.
      * intros (before & after & H). exists (String c before), after.
        simpl. now rewrite H.
      * intros (before & after & H). destruct before as [|d before]; simpl in H.
        -- assert (String.prefix sub (String c s) = true) as Hq
             by (apply prefix_iff_app; exists after; exact H).
           congruence.
        -- inversion H. exists before, after. reflexivity.
Qed.

Lemma not_contains_iff (s sub : string) :
  includes s sub = false <-> ~ contains s sub.
Proof.
  rewrite <- includes_iff_contains. destruct (includes s sub); split; congruence.
Qed.

Lemma truthy_false_iff (s : string) : truthy s = false <-> s = "".
Proof. destruct s; simpl; split; congruence. Qed.

(* ================================================================== *)
(** ** The model catalog *)

(** C7. Every identifier of the catalog [GEMINI_MODELS] looks up to a
    non-empty vendor model string, and two identifiers that look up to the
    same string are the same identifier: the catalog is injective. *)
Theorem catalog_nonempty_injective (id v : string) :
  GoogleAIConfig.get GoogleAIConfig.GEMINI_MODELS id = Some v ->
  v <> "" /\
  forall id', GoogleAIConfig.get GoogleAIConfig.GEMINI_MODELS id' = Some v -> id' = id.
Proof.
  unfold GoogleAIConfig.GEMINI_MODELS. cbn [GoogleAIConfig.get].
  repeat match goal with
         | |- context [String.eqb ?k id] =>
             destruct (String.eqb_spec k id) as [<-|_]
         end;
    intros H; try discriminate H; injection H as <-;
    (split; [discriminate|]);
    intros id';
    repeat match goal with
           | |- context [String.eqb ?k id'] =>
               destruct (String.eqb_spec k id') as [<-|_]
           end;
    intros H'; try discriminate H'; reflexivity.
Qed.

Lemma catalog_nonempty_injective_witness :
  "gemini-2.0-flash" <> "" /\
  forall id',
    GoogleAIConfig.get GoogleAIConfig.GEMINI_MODELS id' = Some "gemini-2.0-flash" ->
    id' = "GEMINI_20_FLASH".
Proof.
  apply (@catalog_nonempty_injective "GEMINI_20_FLASH" "gemini-2.0-flash").
  reflexivity.
Defined.

(** The catalog has exactly the seven identifiers of the source. *)
Lemma catalog_identifiers :
  map fst GoogleAIConfig.GEMINI_MODELS =
  [ "GEMINI_PRO"; "GEMINI_PRO_VISION"; "GEMINI_15_PRO"; "GEMINI_15_FLASH";
    "GEMINI_20_FLASH"; "GEMINI_20_FLASH_LITE"; "GEMINI_20_PRO" ].
Proof. reflexivity. Qed.

(* ================================================================== *)
(** ** Default generation configuration *)

(** C1. For every model name: if it contains "gemini-2.0" the default
    configuration is {temperature 0.4, topK 1, topP 0.95, maxOutputTokens
    8192}; else if it contains "gemini-1.5" it is {0.9, 1, 0.95, 8192};
    otherwise it is the base {0.9, 1, 0.95, 2048}.  The three cases exclude
    one another and cover every name, the first match winning. *)
Theorem default_generation_config_by_family (name : string) :
  (contains name "gemini-2.0" ->
   GoogleAI.getDefaultGenerationConfig name =
   {| Sdk.temperature := Some 0.4%Q; Sdk.topK := Some 1%Z;
      Sdk.topP := Some 0.95%Q; Sdk.maxOutputTokens := Some 8192%Z;
      Sdk.responseMimeType := None; Sdk.candidateCount := None |})
  /\
  (~ contains name "gemini-2.0" -> contains name "gemini-1.5" ->
   GoogleAI.getDefaultGenerationConfig name =
   {| Sdk.temperature := Some 0.9%Q; Sdk.topK := Some 1%Z;
      Sdk.topP := Some 0.95%Q; Sdk.maxOutputTokens := Some 8192%Z;
      Sdk.responseMimeType := None; Sdk.candidateCount := None |})
  /\
  (~ contains name "gemini-2.0" -> ~ contains name "gemini-1.5" ->
   GoogleAI.getDefaultGenerationConfig name =
   {| Sdk.temperature := Some 0.9%Q; Sdk.topK := Some 1%Z;
      Sdk.topP := Some 0.95%Q; Sdk.maxOutputTokens := Some 2048%Z;
      Sdk.responseMimeType := None; Sdk.candidateCount := None |})
  /\
  (contains name "gemini-2.0" \/
   (~ contains name "gemini-2.0" /\ contains name "gemini-1.5") \/
   (~ contains name "gemini-2.0" /\ ~ contains name "gemini-1.5")).
Proof.
  unfold GoogleAI.getDefaultGenerationConfig.
  rewrite <- !not_contains_iff, <- !includes_iff_contains.
  destruct (includes name "gemini-2.0"), (includes name "gemini-1.5");
    repeat split; try congruence; try reflexivity; auto.
Qed.

Lemma default_generation_config_by_family_witness :
  GoogleAI.getDefaultGenerationConfig "gemini-2.0-flash-lite" =
    {| Sdk.temperature := Some 0.4%Q; Sdk.topK := Some 1%Z;
       Sdk.topP := Some 0.95%Q; Sdk.maxOutputTokens := Some 8192%Z;
       Sdk.responseMimeType := None; Sdk.candidateCount := None |}
  /\ GoogleAI.getDefaultGenerationConfig "gemini-1.5-pro" =
    {| Sdk.temperature := Some 0.9%Q; Sdk.topK := Some 1%Z;
       Sdk.topP := Some 0.95%Q; Sdk.maxOutputTokens := Some 8192%Z;
       Sdk.responseMimeType := None; Sdk.candidateCount := None |}
  /\ GoogleAI.getDefaultGenerationConfig "gemini-pro-vision" =
    {| Sdk.temperature := Some 0.9%Q; Sdk.topK := Some 1%Z;
       Sdk.topP := Some 0.95%Q; Sdk.maxOutputTokens := Some 2048%Z;
       Sdk.responseMimeType := None; Sdk.candidateCount := None |}.
Proof.
  split; [|split].
  - apply (proj1 (default_generation_config_by_family "gemini-2.0-flash-lite")).
    exists "", "-flash-lite". reflexivity.
  - apply (proj1 (proj2 (default_generation_config_by_family "gemini-1.5-pro"))).
    + apply not_contains_iff. reflexivity.
    + exists "", "-pro". reflexivity.
  - apply (proj1 (proj2 (proj2 (default_generation_config_by_family "gemini-pro-vision")))).
    + apply not_contains_iff. reflexivity.
    + apply not_contains_iff. reflexivity.
Defined.

(** A name holding both family markers takes the 2.0 row: first match wins. *)
Lemma default_generation_config_first_match :
  GoogleAI.getDefaultGenerationConfig "gemini-1.5-to-gemini-2.0" =
  GoogleAI.with_temperature_maxOutputTokens GoogleAI.baseConfig 0.4%Q 8192%Z.
Proof. reflexivity. Qed.

(* ================================================================== *)
(** ** Construction *)

(** C2. Constructing the service with an empty [apiKey] throws, and the
    world is left exactly as it was: neither the vendor client handle nor
    the model handle has been constructed. *)
Theorem constructor_empty_key_fails (config : Service.GoogleAIConfig) (w : World) :
  Service.apiKey config = "" ->
  run (GoogleAI.constructor config) w =
  (Threw (Error "Google AI API key is required"), w).
Proof.
  intros Hkey. unfold GoogleAI.constructor, run. rewrite Hkey. reflexivity.
Qed.

Lemma constructor_empty_key_fails_witness :
  run (GoogleAI.constructor
         {| Service.apiKey := "";
            Service.modelName := Some "gemini-2.0-flash";
            Service.safetySettings := None;
            Service.generationConfig := None |}) initial_world =
  (Threw (Error "Google AI API key is required"), initial_world).
Proof.
  apply constructor_empty_key_fails. reflexivity.
Defined.

(** With a non-empty key the constructor succeeds and logs exactly the two
    handle constructions. *)
Lemma constructor_succeeds (config : Service.GoogleAIConfig) (w : World) :
  Service.apiKey config <> "" ->
  let name := or_else (Service.modelName config) "gemini-pro" in
  let p := {| Sdk.model := name;
              Sdk.safetySettings :=
                match Service.safetySettings config with
                | Some s => s
                | None => GoogleAI.getDefaultSafetySettings
                end;
              Sdk.generationConfig :=
                match Service.generationConfig config with
                | Some g => g
                | None => GoogleAI.getDefaultGenerationConfig name
                end |} in
  let g := {| Sdk.apiKey := Service.apiKey config |} in
  run (GoogleAI.constructor config) w =
  (Returned {| genAI := g;
               model := {| Sdk.client := g; Sdk.params := p |};
               modelName := name |},
   logged w [NewGoogleGenerativeAI (Service.apiKey config); GetGenerativeModel p]).
Proof.
  intros Hkey name p g. unfold GoogleAI.constructor, run.
  destruct (truthy (Service.apiKey config)) eqn:Ht.
  - cbn. unfold logged. cbn. rewrite <- app_assoc. reflexivity.
  - apply truthy_false_iff in Ht. contradiction.
Qed.

(** C9. Constructed with a non-empty key and a missing or empty
    [modelName], the service binds "gemini-pro" instead of failing:
    [getCurrentModelName] returns "gemini-pro", the model handle is bound to
    that name, and the derived default configuration is the base one. *)
Theorem constructor_defaults_model_name (config : Service.GoogleAIConfig) (w : World) :
  Service.apiKey config <> "" ->
  Service.modelName config = None \/ Service.modelName config = Some "" ->
  exists this w',
    run (GoogleAI.constructor config) w = (Returned this, w')
    /\ GoogleAI.getCurrentModelName this = "gemini-pro"
    /\ Sdk.model (Sdk.params (model this)) = "gemini-pro"
    /\ GoogleAI.getDefaultGenerationConfig (modelName this) = GoogleAI.baseConfig.
Proof.
  intros Hkey Hname. eexists; eexists. split.
  - apply constructor_succeeds. exact Hkey.
  - destruct Hname as [-> | ->]; cbn; repeat split; reflexivity.
Qed.

Lemma constructor_defaults_model_name_witness :
  exists this w',
    run (GoogleAI.constructor
           {| Service.apiKey := "k";
              Service.modelName := Some "";
              Service.safetySettings := None;
              Service.generationConfig := None |}) initial_world = (Returned this, w')
    /\ GoogleAI.getCurrentModelName this = "gemini-pro"
    /\ Sdk.model (Sdk.params (model this)) = "gemini-pro"
    /\ GoogleAI.getDefaultGenerationConfig (modelName this) = GoogleAI.baseConfig.
Proof.
  apply constructor_defaults_model_name.
  - discriminate.
  - right. reflexivity.
Defined.

(* ================================================================== *)
(** ** One-shot generation *)

Lemma logged_logged (w : World) (a b : list Event) :
  logged (logged w a) b = logged w (a ++ b).
Proof. unfold logged; cbn. now rewrite app_assoc. Qed.

Lemma logged_nil (w : World) : logged w [] = w.
Proof. destruct w; unfold logged; cbn. now rewrite app_nil_r. Qed.

Lemma emit_run (ev : Event) (w : World) : emit ev w = (Returned tt, logged w [ev]).
Proof. reflexivity. Qed.

(** The run of [generateContent], by what the vendor round trip yields. *)
Lemma generateContent_run (vendor : Sdk.Vendor) (this : GoogleAIService)
    (prompt : string) (w : World) :
  GoogleAI.generateContent vendor this prompt w =
  match vendor_text (Sdk.generateContent vendor (model this) prompt) with
  | Returned t =>
      (Returned {| Service.text := t; Service.error := None |},
       logged w [ModelGenerateContent (model this) prompt])
  | Threw e =>
      (Returned {| Service.text := "";
                   Service.error := Some (message_or e "Unknown error occurred") |},
       logged w [ModelGenerateContent (model this) prompt;
                 ConsoleError "Error generating content:" e])
  end.
Proof.
  unfold GoogleAI.generateContent, GoogleAI.model_generateContent, vendor_text,
    try_catch, bind, await, settle, ret.
  rewrite emit_run.
  destruct (Sdk.generateContent vendor (model this) prompt) as [result|e].
  - destruct (Sdk.response result) as [r|e].
    + destruct (Sdk.text r) as [t|e]; [reflexivity|].
      rewrite emit_run, logged_logged. reflexivity.
    + rewrite emit_run, logged_logged. reflexivity.
  - rewrite emit_run, logged_logged. reflexivity.
Qed.

(** C3. [generateContent] never raises to its caller.  When the vendor
    round trip yields the text [t] the result is [{text: t}] with no error
    field; when it fails with [e], at whichever stage, the result is
    [{text: "", error: message}] where the message is [e.message] for an
    [Error] and "Unknown error occurred" otherwise. *)
Theorem generateContent_never_raises (vendor : Sdk.Vendor) (this : GoogleAIService)
    (prompt : string) (w : World) :
  (exists r w', run (GoogleAI.generateContent vendor this prompt) w = (Returned r, w'))
  /\ (forall t,
        vendor_text (Sdk.generateContent vendor (model this) prompt) = Returned t ->
        fst (run (GoogleAI.generateContent vendor this prompt) w) =
        Returned {| Service.text := t; Service.error := None |})
  /\ (forall e,
        vendor_text (Sdk.generateContent vendor (model this) prompt) = Threw e ->
        fst (run (GoogleAI.generateContent vendor this prompt) w) =
        Returned {| Service.text := "";
                    Service.error := Some (message_or e "Unknown error occurred") |}).
Proof.
  unfold run. rewrite generateContent_run.
  destruct (vendor_text (Sdk.generateContent vendor (model this) prompt)) as [t|e].
  - split; [eauto|]. split; intros x Hx; inversion Hx; reflexivity.
  - split; [eauto|]. split; intros x Hx; inversion Hx; reflexivity.
Qed.

Lemma generateContent_never_raises_witness :
  fst (run (GoogleAI.generateContent (answering_vendor "hello" [] Sdk.Exhausted)
              (service_for "k" "gemini-pro") "hi") initial_world) =
    Returned {| Service.text := "hello"; Service.error := None |}
  /\ fst (run (GoogleAI.generateContent (rejecting_vendor (Error "quota exceeded"))
                 (service_for "k" "gemini-pro") "hi") initial_world) =
    Returned {| Service.text := ""; Service.error := Some "quota exceeded" |}.
Proof.
  split.
  - apply (proj1 (proj2 (generateContent_never_raises
                           (answering_vendor "hello" [] Sdk.Exhausted)
                           (service_for "k" "gemini-pro") "hi" initial_world))).
    reflexivity.
  - apply (proj2 (proj2 (generateContent_never_raises
                           (rejecting_vendor (Error "quota exceeded"))
                           (service_for "k" "gemini-pro") "hi" initial_world))
             (Error "quota exceeded")).
    reflexivity.
Defined.

(* ================================================================== *)
(** ** Streaming generation *)

(** With a callback that returns normally, the loop over chunks whose
    [text()] returns invokes the callback once per chunk, in order, and then
    completes the way the stream ends. *)
Lemma for_await_texts (onChunk : Callback) (texts : list string)
    (ending : Sdk.StreamEnd) (w : World) :
  (forall t, onChunk t = Returned tt) ->
  GoogleAI.for_await (map text_chunk texts) ending (stream_body onChunk) w =
  (match ending with
   | Sdk.Exhausted => Returned tt
   | Sdk.Failed e => Threw e
   end,
   logged w (map OnChunk texts)).
Proof.
  intros Hcb. revert w. induction texts as [|t texts IH]; intros w.
  - cbn. rewrite logged_nil. destruct ending; reflexivity.
  - cbn [map GoogleAI.for_await]. unfold bind at 1.
    unfold stream_body at 1, invoke, bind, settle. cbn [text_chunk Sdk.text].
    rewrite emit_run, Hcb, IH, logged_logged. reflexivity.
Qed.

(** Whatever the chunks and the callback do, the loop only ever logs
    callback invocations, each for the text of a chunk that arrived, in
    arrival order. *)
Lemma for_await_log (onChunk : Callback)
    (chunks : list Sdk.EnhancedGenerateContentResponse)
    (ending : Sdk.StreamEnd) (w : World) :
  exists r n,
    GoogleAI.for_await chunks ending (stream_body onChunk) w =
    (r, logged w (map OnChunk
                    (flat_map (fun c => match Sdk.text c with
                                        | Returned t => [t]
                                        | Threw _ => []
                                        end) (firstn n chunks)))).
Proof.
  revert w. induction chunks as [|c chunks IH]; intros w.
  - exists (match ending with Sdk.Exhausted => Returned tt | Sdk.Failed e => Threw e end), 0%nat.
    cbn. rewrite logged_nil. destruct ending; reflexivity.
  - cbn [GoogleAI.for_await]. unfold bind at 1.
    unfold stream_body at 1, invoke, bind, settle.
    destruct (Sdk.text c) as [t|e] eqn:Ht.
    + rewrite emit_run. destruct (onChunk t) as [[]|e].
      * destruct (IH (logged w [OnChunk t])) as (r & n & Hn).
        exists r, (S n). rewrite Hn, logged_logged. cbn. rewrite Ht. reflexivity.
      * exists (Threw e), 1%nat. cbn. rewrite Ht. reflexivity.
    + exists (Threw e), 0%nat. cbn. rewrite logged_nil. reflexivity.
Qed.

(* ================================================================== *)
(** ** Chat sessions *)

(** What [startChat()] passes to the vendor when the history is left out:
    the empty history and the default configuration derived from the model
    name. *)
Lemma startChat_run (this : GoogleAIService) (w : World) :
  let p := {| Sdk.history := [];
              Sdk.chatGenerationConfig :=
                GoogleAI.getDefaultGenerationConfig (modelName this) |} in
  run (GoogleAI.startChat this None) w =
  (Returned {| Sdk.sessionModel := model this; Sdk.sessionParams := p |},
   logged w [ModelStartChat (model this) p]).
Proof. reflexivity. Qed.

(** X9. For a service constructed with a non-empty key and without a
    caller-supplied [generationConfig], [startChat()] called without a
    history creates a session on the service's model handle, with the empty
    history, whose configuration is the one the model handle was bound to. *)
Lemma startChat_default_config (key : string) (name : option string)
    (safety : option (list Sdk.SafetySetting)) (w : World) :
  key <> "" ->
  exists this w1 session w2,
    run (GoogleAI.constructor
           {| Service.apiKey := key; Service.modelName := name;
              Service.safetySettings := safety;
              Service.generationConfig := None |}) w = (Returned this, w1)
    /\ run (GoogleAI.startChat this None) w1 = (Returned session, w2)
    /\ Sdk.sessionModel session = model this
    /\ Sdk.history (Sdk.sessionParams session) = []
    /\ Sdk.chatGenerationConfig (Sdk.sessionParams session) =
       Sdk.generationConfig (Sdk.params (model this)).
Proof.
  intros Hkey. do 4 eexists. split; [|split; [|split; [|split]]].
  - apply constructor_succeeds. exact Hkey.
  - apply startChat_run.
  - reflexivity.
  - reflexivity.
  - reflexivity.
Qed.

(** C5. A service constructed with the caller-supplied configuration
    [deterministicConfig] binds its model handle to that configuration, yet
    the session [startChat] creates is bound to the default configuration
    derived from the model name, which differs from it. *)
Theorem startChat_ignores_supplied_config :
  exists this w1 session w2,
    run (GoogleAI.constructor
           {| Service.apiKey := "k";
              Service.modelName := Some "gemini-pro";
              Service.safetySettings := None;
              Service.generationConfig := Some deterministicConfig |}) initial_world
      = (Returned this, w1)
    /\ Sdk.generationConfig (Sdk.params (model this)) = deterministicConfig
    /\ run (GoogleAI.startChat this None) w1 = (Returned session, w2)
    /\ Sdk.history (Sdk.sessionParams session) = []
    /\ Sdk.chatGenerationConfig (Sdk.sessionParams session) = GoogleAI.baseConfig
    /\ Sdk.chatGenerationConfig (Sdk.sessionParams session) <>
       Sdk.generationConfig (Sdk.params (model this)).
Proof.
  do 4 eexists. split; [|split; [|split; [|split; [|split]]]].
  - apply constructor_succeeds. discriminate.
  - reflexivity.
  - apply startChat_run.
  - reflexivity.
  - reflexivity.
  - cbn. discriminate.
Qed.

(* ================================================================== *)
(** ** The shared instance *)

(** An initialization that starts when the shared instance exists leaves it
    in place, whatever model name it was asked for. *)
Lemma initializeService_keeps_existing (hook : nat)
    (props : option UseGoogleAI.UseGoogleAIProps) (env : option string)
    (service : GoogleAIService) (w : World) :
  googleAIService w = Some service ->
  run (UseGoogleAI.initializeService hook props env) w =
  (Returned tt, logged w [SetIsReady hook true]).
Proof.
  intros Hs. unfold run, UseGoogleAI.initializeService,
    UseGoogleAI.initializeService_begin, bind at 1 2, read_googleAIService.
  rewrite Hs. reflexivity.
Qed.

Lemma getApiKey_truthy (env : option string) :
  exists key, GoogleAIConfig.getApiKey env = Returned key /\ key <> "".
Proof.
  unfold GoogleAIConfig.getApiKey, or_else. eexists. split; [reflexivity|].
  destruct env as [[|c s]|]; cbn; discriminate.
Qed.

(** An initialization that starts when no shared instance exists, and runs
    with nothing scheduled in between, creates one bound to the requested
    model name (or to "gemini-pro" when none is requested). *)
Lemma initializeService_creates (hook : nat)
    (props : option UseGoogleAI.UseGoogleAIProps) (env : option string) (w : World) :
  googleAIService w = None ->
  exists service w',
    run (UseGoogleAI.initializeService hook props env) w = (Returned tt, w')
    /\ googleAIService w' = Some service
    /\ modelName service =
       or_else (UseGoogleAI.props_modelName props) GoogleAIConfig.GEMINI_PRO.
Proof.
  intros Hs. destruct (getApiKey_truthy env) as (key & Hkey & Hne).
  unfold run, UseGoogleAI.initializeService,
    UseGoogleAI.initializeService_begin, bind at 1 2, read_googleAIService.
  rewrite Hs. cbn [ret UseGoogleAI.continue].
  unfold UseGoogleAI.initializeService_resume, try_catch, bind at 1, await, settle.
  rewrite Hkey. unfold bind at 1.
  destruct (truthy key) eqn:Ht; [|apply truthy_false_iff in Ht; contradiction].
  cbn [negb]. unfold bind at 1.
  pose proof (constructor_succeeds
                {| Service.apiKey := key;
                   Service.modelName :=
                     Some (or_else (UseGoogleAI.props_modelName props)
                             GoogleAIConfig.GEMINI_PRO);
                   Service.safetySettings := None;
                   Service.generationConfig := None |} w Hne) as Hc.
  unfold run in Hc. cbn zeta in Hc. rewrite Hc.
  do 2 eexists. split; [reflexivity|]. split; [reflexivity|].
  cbn. destruct (UseGoogleAI.props_modelName props) as [[|c s]|]; reflexivity.
Qed.

(** Two initializations, the second starting after the first has ended: the
    second observes the instance the first created and leaves it in place. *)
Lemma initializeService_twice_in_sequence (hook1 hook2 : nat)
    (props1 props2 : option UseGoogleAI.UseGoogleAIProps) (env : option string)
    (w : World) :
  googleAIService w = None ->
  exists service w1 w2,
    run (UseGoogleAI.initializeService hook1 props1 env) w = (Returned tt, w1)
    /\ googleAIService w1 = Some service
    /\ run (UseGoogleAI.initializeService hook2 props2 env) w1 = (Returned tt, w2)
    /\ googleAIService w2 = Some service.
Proof.
  intros Hs.
  destruct (initializeService_creates hook1 props1 env w Hs) as (service & w1 & H1 & H2 & _).
  exists service, w1, (logged w1 [SetIsReady hook2 true]).
  repeat split; try assumption.
  apply (initializeService_keeps_existing hook2 props2 env service w1 H2).
Qed.

(** C6. Two hooks asking for different models are mounted in one commit, so
    that both initializations reach [await getApiKey()] before either is
    resumed.  The first to resume creates the shared instance, bound to
    "gemini-1.5-pro"; the second then replaces it with an instance bound to
    "gemini-2.0-flash". *)
Theorem overlapped_initialization_replaces_instance :
  let props1 := Some {| UseGoogleAI.modelName := Some "gemini-1.5-pro" |} in
  let props2 := Some {| UseGoogleAI.modelName := Some "gemini-2.0-flash" |} in
  exists s1 w1 s2 w2 w3 w4 first second,
    run (UseGoogleAI.initializeService_begin 1 None) initial_world = (Returned s1, w1)
    /\ run (UseGoogleAI.initializeService_begin 2 None) w1 = (Returned s2, w2)
    /\ googleAIService w2 = None
    /\ run (UseGoogleAI.continue 1 props1 s1) w2 = (Returned tt, w3)
    /\ googleAIService w3 = Some first
    /\ GoogleAI.getCurrentModelName first = "gemini-1.5-pro"
    /\ run (UseGoogleAI.continue 2 props2 s2) w3 = (Returned tt, w4)
    /\ googleAIService w4 = Some second
    /\ GoogleAI.getCurrentModelName second = "gemini-2.0-flash"
    /\ run (UseGoogleAI.initializeService_overlapped 1 props1 2 props2 None)
         initial_world = (Returned tt, w4).
Proof.
  cbv zeta. do 8 eexists.
  repeat match goal with |- _ /\ _ => split end.
  - reflexivity.
  - reflexivity.
  - reflexivity.
  - lazy. reflexivity.
  - reflexivity.
  - reflexivity.
  - lazy. reflexivity.
  - reflexivity.
  - reflexivity.
  - reflexivity.
Qed.

(* ================================================================== *)
(** ** The hook's operations *)

Lemma isLoading_after_app (hook : nat) (current : bool) (a b : list Event) :
  UseGoogleAI.isLoading_after hook current (a ++ b) =
  UseGoogleAI.isLoading_after hook (UseGoogleAI.isLoading_after hook current a) b.
Proof.
  revert current. induction a as [|ev a IH]; intros current; [reflexivity|].
  destruct ev; cbn; apply IH.
Qed.



(** The run of the hook's [generateResponse] once the shared instance
    exists, by what the vendor round trip yields. *)
Lemma generateResponse_run (vendor : Sdk.Vendor) (hook : nat) (prompt : string)
    (service : GoogleAIService) (w : World) :
  googleAIService w = Some service ->
  UseGoogleAI.generateResponse vendor hook prompt w =
  match vendor_text (Sdk.generateContent vendor (model service) prompt) with
  | Returned t =>
      (Returned t,
       logged w [SetIsLoading hook true; SetError hook None;
                 ModelGenerateContent (model service) prompt;
                 SetIsLoading hook false])
  | Threw e =>
      (Returned "",
       logged w ([SetIsLoading hook true; SetError hook None;
                  ModelGenerateContent (model service) prompt;
                  ConsoleError "Error generating content:" e]
                 ++ (if truthy (message_or e "Unknown error occurred")
                     then [SetError hook (Some (message_or e "Unknown error occurred"))]
                     else [])
                 ++ [SetIsLoading hook false]))
  end.
Proof.
  intros Hs.
  unfold UseGoogleAI.generateResponse, bind at 1, read_googleAIService.
  rewrite Hs. unfold UseGoogleAI.setIsLoading, UseGoogleAI.setError.
  unfold bind at 1. rewrite emit_run. unfold bind at 1. rewrite emit_run.
  unfold try_finally, try_catch, bind at 1.
  rewrite generateContent_run, !logged_logged.
  destruct (vendor_text (Sdk.generateContent vendor (model service) prompt)) as [t|e].
  - cbn [Service.error truthy_opt Service.text ret].
    rewrite emit_run, !logged_logged. reflexivity.
  - cbn [Service.error truthy_opt Service.text].
    destruct (truthy (message_or e "Unknown error occurred")).
    + unfold bind, ret. rewrite !emit_run, !logged_logged. reflexivity.
    + cbn [ret]. rewrite emit_run, !logged_logged. reflexivity.
Qed.

(** [generateContentStream] only ever logs the vendor request, callback
    invocations and console output, and leaves the shared instance alone. *)
Lemma generateContentStream_log (vendor : Sdk.Vendor) (this : GoogleAIService)
    (prompt : string) (onChunk : Callback) (w : World) :
  exists r evs,
    GoogleAI.generateContentStream vendor this prompt onChunk w = (r, logged w evs)
    /\ forall hook, Forall (leaves_isLoading hook) evs.
Proof.
  unfold GoogleAI.generateContentStream, GoogleAI.model_generateContentStream,
    try_catch, bind at 1 2, await, settle.
  rewrite emit_run.
  assert (forall hook ts, Forall (leaves_isLoading hook) (map OnChunk ts)) as Hchunks.
  { intros hook ts. apply Forall_forall. intros ev Hin.
    apply in_map_iff in Hin. destruct Hin as (t & <- & _). intros b. discriminate. }
  destruct (Sdk.generateContentStream vendor (model this) prompt) as [result|e].
  - change (fun chunk => chunkText <- (fun w0 => (Sdk.text chunk, w0)) ;;
                         invoke onChunk chunkText)
      with (stream_body onChunk).
    destruct (for_await_log onChunk (Sdk.chunks (Sdk.stream result))
                (Sdk.ending (Sdk.stream result))
                (logged w [ModelGenerateContentStream (model this) prompt]))
      as (r & n & Hrun).
    rewrite Hrun, logged_logged. destruct r as [[]|e].
    + eexists; eexists. split; [reflexivity|]. intros hook.
      constructor; [intros b; discriminate|]. apply Hchunks.
    + unfold bind, throw. rewrite emit_run, logged_logged.
      eexists; eexists. split; [reflexivity|]. intros hook.
      constructor; [intros b; discriminate|]. apply Forall_app. split.
      * apply Hchunks.
      * constructor; [intros b; discriminate|constructor].
  - unfold bind, throw. rewrite emit_run, logged_logged.
    eexists; eexists. split; [reflexivity|]. intros hook.
    repeat (constructor; [intros b; discriminate|]). constructor.
Qed.

(** The run of the hook's [generateResponseStream] once the shared instance
    exists: it never rejects, and its log is bracketed by the two
    [setIsLoading] calls. *)
Lemma generateResponseStream_run (vendor : Sdk.Vendor) (hook : nat) (prompt : string)
    (onChunk : Callback) (service : GoogleAIService) (w : World) :
  googleAIService w = Some service ->
  exists during,
    UseGoogleAI.generateResponseStream vendor hook prompt onChunk w =
    (Returned tt,
     logged w (SetIsLoading hook true :: during ++ [SetIsLoading hook false]))
    /\ Forall (leaves_isLoading hook) during.
Proof.
  intros Hs.
  unfold UseGoogleAI.generateResponseStream, bind at 1, read_googleAIService.
  rewrite Hs. unfold UseGoogleAI.setIsLoading, UseGoogleAI.setError.
  unfold bind at 1. rewrite emit_run. unfold bind at 1. rewrite emit_run.
  unfold try_finally, try_catch. rewrite !logged_logged.
  destruct (generateContentStream_log vendor service prompt onChunk
              (logged w ([SetIsLoading hook true] ++ [SetError hook None])))
    as (r & evs & Hrun & Hevs).
  rewrite Hrun, logged_logged. specialize (Hevs hook). destruct r as [[]|e].
  - rewrite emit_run, logged_logged.
    exists (SetError hook None :: evs). split.
    + cbn [app]. reflexivity.
    + constructor; [intros b; discriminate|exact Hevs].
  - rewrite !emit_run, !logged_logged.
    exists (SetError hook None
            :: evs ++ [SetError hook (Some (message_or e "Unknown error occurred"))]).
    split.
    + cbn [app]. rewrite <- app_assoc. reflexivity.
    + constructor; [intros b; discriminate|]. apply Forall_app. split; [exact Hevs|].
      constructor; [intros b; discriminate|constructor].
Qed.

(** Before the shared instance exists, both operations reject at their
    guard, ahead of every state setter. *)
Lemma operations_reject_before_initialization (vendor : Sdk.Vendor) (hook : nat)
    (prompt : string) (onChunk : Callback) (w : World) :
  googleAIService w = None ->
  run (UseGoogleAI.generateResponse vendor hook prompt) w =
    (Threw (Error "Google AI service is not initialized"), w)
  /\ run (UseGoogleAI.generateResponseStream vendor hook prompt onChunk) w =
    (Threw (Error "Google AI service is not initialized"), w).
Proof.
  intros Hs.
  unfold run, UseGoogleAI.generateResponse, UseGoogleAI.generateResponseStream,
    bind, read_googleAIService.
  rewrite Hs. split; reflexivity.
Qed.




Lemma error_after_app (hook : nat) (current : option string) (a b : list Event) :
  UseGoogleAI.error_after hook current (a ++ b) =
  UseGoogleAI.error_after hook (UseGoogleAI.error_after hook current a) b.
Proof.
  revert current. induction a as [|ev a IH]; intros current; [reflexivity|].
  destruct ev; cbn; apply IH.
Qed.


(** The one outcome left out below: were the vendor to reject with an
    [Error] whose message is empty, which the vendor SDK's errors never are,
    the service would report [{text: "", error: ""}] and the hook would
    resolve with the empty string and leave the error state [null], the
    truthiness test taking the empty message for no error. *)
Lemma generateResponse_drops_empty_message :
  let vendor := rejecting_vendor (Error "") in
  fst (run (GoogleAI.generateContent vendor (service_for "k" "gemini-pro") "hi")
         ready_world) =
    Returned {| Service.text := ""; Service.error := Some "" |}
  /\ fst (run (UseGoogleAI.generateResponse vendor 1 "hi") ready_world) = Returned ""
  /\ UseGoogleAI.error 1
       (snd (run (UseGoogleAI.generateResponse vendor 1 "hi") ready_world)) = None
  /\ UseGoogleAI.error 1
       (snd (run (UseGoogleAI.generateResponseStream vendor 1 "hi"
                    (fun _ => Returned tt)) ready_world)) = Some "".
Proof.
  cbv zeta. repeat split; reflexivity.
Qed.



(* ================================================================== *)
(** ** Further cases of streaming *)

(** When the streaming request itself rejects, no chunk is delivered and the
    rejection is propagated. *)
Lemma generateContentStream_request_rejected (vendor : Sdk.Vendor)
    (this : GoogleAIService) (prompt : string) (onChunk : Callback)
    (e : Thrown) (w : World) :
  Sdk.generateContentStream vendor (model this) prompt = Threw e ->
  run (GoogleAI.generateContentStream vendor this prompt onChunk) w =
  (Threw e,
   logged w [ModelGenerateContentStream (model this) prompt;
             ConsoleError "Error in content stream:" e]).
Proof.
  intros Hvendor.
  unfold run, GoogleAI.generateContentStream, GoogleAI.model_generateContentStream,
    try_catch, bind at 1 2, await, settle.
  rewrite emit_run, Hvendor. unfold bind, throw.
  rewrite emit_run, logged_logged. reflexivity.
Qed.

(** A chunk whose [text()] throws ends the loop there: the callback has been
    invoked for the chunks before it and the exception is propagated. *)
Lemma generateContentStream_text_throws :
  run (GoogleAI.generateContentStream
         {| Sdk.generateContent := fun _ _ => Threw (Error "unused");
            Sdk.generateContentStream := fun _ _ =>
              Returned {| Sdk.stream :=
                {| Sdk.chunks := [text_chunk "A";
                                  {| Sdk.text := Threw (Error "blocked") |};
                                  text_chunk "C"];
                   Sdk.ending := Sdk.Exhausted |} |} |}
         (service_for "k" "gemini-pro") "hi" (fun _ => Returned tt)) initial_world =
  (Threw (Error "blocked"),
   logged initial_world
     [ModelGenerateContentStream (model (service_for "k" "gemini-pro")) "hi";
      OnChunk "A";
      ConsoleError "Error in content stream:" (Error "blocked")]).
Proof. reflexivity. Qed.

(** A callback that throws ends the loop at that invocation, and its
    exception is propagated like a vendor failure. *)
Lemma generateContentStream_callback_throws :
  run (GoogleAI.generateContentStream (answering_vendor "" ["A"; "B"] Sdk.Exhausted)
         (service_for "k" "gemini-pro") "hi"
         (fun _ => Threw (Error "render failed"))) initial_world =
  (Threw (Error "render failed"),
   logged initial_world
     [ModelGenerateContentStream (model (service_for "k" "gemini-pro")) "hi";
      OnChunk "A";
      ConsoleError "Error in content stream:" (Error "render failed")]).
Proof. reflexivity. Qed.

(* ================================================================== *)
(** ** Credential resolution *)

(** X1. [getApiKey] always fulfils with a non-empty key: the environment
    override when that is set and non-empty, the fallback constant
    otherwise. *)
Theorem getApiKey_override_or_fallback (env : option string) :
  exists key,
    GoogleAIConfig.getApiKey env = Returned key
    /\ key <> ""
    /\ (forall s, env = Some s -> s <> "" -> key = s)
    /\ (env = None \/ env = Some "" -> key = GoogleAIConfig.GOOGLE_AI_API_KEY).
Proof.
  exists (or_else env GoogleAIConfig.GOOGLE_AI_API_KEY).
  split; [reflexivity|]. split; [|split].
  - destruct env as [[|c s]|]; cbn; discriminate.
  - intros s -> Hs. destruct s; [contradiction|reflexivity].
  - intros [-> | ->]; reflexivity.
Qed.

Lemma getApiKey_override_or_fallback_witness :
  GoogleAIConfig.getApiKey (Some "secret") = Returned "secret"
  /\ GoogleAIConfig.getApiKey (Some "") = Returned "YOUR_API_KEY".
Proof.
  split.
  - destruct (getApiKey_override_or_fallback (Some "secret"))
      as (key & Hkey & _ & Hover & _).
    rewrite Hkey, (Hover "secret" eq_refl); [reflexivity|discriminate].
  - destruct (getApiKey_override_or_fallback (Some ""))
      as (key & Hkey & _ & _ & Hfall).
    rewrite Hkey, Hfall; [reflexivity|right; reflexivity].
Defined.

(* ================================================================== *)
(** ** More on construction and on the default configuration *)

(** X2. The constructor throws exactly when the key is empty; the model
    name, the safety settings and the generation configuration never make
    it fail. *)
Theorem constructor_fails_iff_key_empty (config : Service.GoogleAIConfig) (w : World) :
  (exists e w', run (GoogleAI.constructor config) w = (Threw e, w'))
  <-> Service.apiKey config = "".
Proof.
  split.
  - intros (e & w' & Hrun).
    destruct (String.string_dec (Service.apiKey config) "") as [Hk|Hk]; [exact Hk|].
    rewrite (constructor_succeeds config w Hk) in Hrun. discriminate Hrun.
  - intros Hk. exists (Error "Google AI API key is required"), w.
    unfold GoogleAI.constructor, run. rewrite Hk. reflexivity.
Qed.

(** X3. Safety settings and a generation configuration supplied at
    construction are the ones the model handle is bound to, and a later
    [generateContent] sends its request on exactly that handle. *)
Theorem supplied_settings_reach_vendor (vendor : Sdk.Vendor) (key : string)
    (name : option string) (safety : list Sdk.SafetySetting)
    (gen : Sdk.GenerationConfig) (prompt : string) (w : World) :
  key <> "" ->
  let handle :=
    {| Sdk.client := {| Sdk.apiKey := key |};
       Sdk.params := {| Sdk.model := or_else name "gemini-pro";
                        Sdk.safetySettings := safety;
                        Sdk.generationConfig := gen |} |} in
  exists this w1 r w2,
    run (GoogleAI.constructor
           {| Service.apiKey := key; Service.modelName := name;
              Service.safetySettings := Some safety;
              Service.generationConfig := Some gen |}) w = (Returned this, w1)
    /\ model this = handle
    /\ run (GoogleAI.generateContent vendor this prompt) w1 = (Returned r, w2)
    /\ In (ModelGenerateContent handle prompt) (added (GoogleAI.generateContent vendor this prompt) w1).
Proof.
  intros Hkey handle.
  pose proof (constructor_succeeds
                {| Service.apiKey := key; Service.modelName := name;
                   Service.safetySettings := Some safety;
                   Service.generationConfig := Some gen |} w Hkey) as Hc.
  cbn in Hc. do 2 eexists.
  pose proof (generateContent_run vendor
                {| genAI := {| Sdk.apiKey := key |}; model := handle;
                   modelName := or_else name "gemini-pro" |} prompt) as Hg.
  cbn [model] in Hg.
  destruct (vendor_text (Sdk.generateContent vendor handle prompt)) as [t|e];
    do 2 eexists; (split; [exact Hc|]); (split; [reflexivity|]);
    (split; [unfold run; apply Hg|]);
    unfold added, run; rewrite Hg; cbn [snd logged log];
    rewrite skipn_app, skipn_all, Nat.sub_diag; cbn; auto.
Qed.

Lemma supplied_settings_reach_vendor_witness :
  exists this w1 r w2,
    run (GoogleAI.constructor
           {| Service.apiKey := "k"; Service.modelName := Some "gemini-1.5-pro";
              Service.safetySettings := Some [];
              Service.generationConfig := Some deterministicConfig |}) initial_world
      = (Returned this, w1)
    /\ model this =
       {| Sdk.client := {| Sdk.apiKey := "k" |};
          Sdk.params := {| Sdk.model := or_else (Some "gemini-1.5-pro") "gemini-pro";
                           Sdk.safetySettings := [];
                           Sdk.generationConfig := deterministicConfig |} |}
    /\ run (GoogleAI.generateContent (rejecting_vendor (Error "offline")) this "hi") w1
       = (Returned r, w2)
    /\ In (ModelGenerateContent
             {| Sdk.client := {| Sdk.apiKey := "k" |};
                Sdk.params := {| Sdk.model := or_else (Some "gemini-1.5-pro") "gemini-pro";
                                 Sdk.safetySettings := [];
                                 Sdk.generationConfig := deterministicConfig |} |} "hi")
          (added (GoogleAI.generateContent (rejecting_vendor (Error "offline")) this "hi") w1).
Proof.
  apply (supplied_settings_reach_vendor (rejecting_vendor (Error "offline")) "k"
           (Some "gemini-1.5-pro") [] deterministicConfig "hi" initial_world).
  discriminate.
Defined.

(** X4. [isUsingGemini2Model] answers true exactly for the model names that
    contain "gemini-2.0", which are exactly those whose default
    configuration lowers the temperature to 0.4. *)
Theorem isUsingGemini2Model_iff (this : GoogleAIService) :
  (GoogleAI.isUsingGemini2Model this = true <-> contains (modelName this) "gemini-2.0")
  /\ (GoogleAI.isUsingGemini2Model this = true <->
      Sdk.temperature (GoogleAI.getDefaultGenerationConfig (modelName this))
      = Some 0.4%Q).
Proof.
  unfold GoogleAI.isUsingGemini2Model, GoogleAI.getDefaultGenerationConfig.
  split; [apply includes_iff_contains|].
  destruct (includes (modelName this) "gemini-2.0");
    [|destruct (includes (modelName this) "gemini-1.5")]; cbn;
    split; intros H; try reflexivity; discriminate H.
Qed.

(** Whatever the model name, the default configuration keeps topK 1 and
    topP 0.95, sets neither a response MIME type nor a candidate count, and
    pairs temperature with output limit in one of three ways only: (0.9,
    2048), (0.9, 8192) or (0.4, 8192); the lowered temperature never comes
    with the small limit. *)
Lemma default_generation_config_invariants (name : string) :
  let c := GoogleAI.getDefaultGenerationConfig name in
  Sdk.topK c = Some 1%Z
  /\ Sdk.topP c = Some 0.95%Q
  /\ Sdk.responseMimeType c = None
  /\ Sdk.candidateCount c = None
  /\ ((Sdk.temperature c = Some 0.9%Q /\ Sdk.maxOutputTokens c = Some 2048%Z)
      \/ (Sdk.temperature c = Some 0.9%Q /\ Sdk.maxOutputTokens c = Some 8192%Z)
      \/ (Sdk.temperature c = Some 0.4%Q /\ Sdk.maxOutputTokens c = Some 8192%Z)).
Proof.
  unfold GoogleAI.getDefaultGenerationConfig.
  destruct (includes name "gemini-2.0");
    [|destruct (includes name "gemini-1.5")]; cbn; repeat split; auto.
Qed.

(* ================================================================== *)
(** ** Initialization of the shared instance *)

Lemma hook_model_name_truthy (o : option string) :
  or_else (Some (or_else o GoogleAIConfig.GEMINI_PRO)) "gemini-pro" =
  or_else o GoogleAIConfig.GEMINI_PRO.
Proof. destruct o as [[|c s]|]; reflexivity. Qed.

(** The continuation of [initializeService] after its [await], by the way
    the awaited key settles. *)
Lemma initializeService_resume_run (hook : nat)
    (props : option UseGoogleAI.UseGoogleAIProps) (pending : Promise string)
    (w : World) :
  let name := or_else (UseGoogleAI.props_modelName props) GoogleAIConfig.GEMINI_PRO in
  UseGoogleAI.initializeService_resume hook props pending w =
  match pending with
  | Returned key =>
      if truthy key then
        (Returned tt,
         {| googleAIService := Some (service_for key name);
            log := log w ++ [NewGoogleGenerativeAI key;
                             GetGenerativeModel (Sdk.params (model (service_for key name)));
                             SetIsReady hook true] |})
      else
        (Returned tt,
         logged w [ConsoleError "Failed to initialize Google AI service:"
                     (Error "Google AI API key is not configured");
                   SetError hook (Some "Google AI API key is not configured")])
  | Threw e =>
      (Returned tt,
       logged w [ConsoleError "Failed to initialize Google AI service:" e;
                 SetError hook
                   (Some (message_or e "Failed to initialize Google AI service"))])
  end.
Proof.
  intros name.
  unfold UseGoogleAI.initializeService_resume, try_catch, bind at 1, await, settle.
  destruct pending as [key|e].
  - destruct (truthy key) eqn:Ht; cbn [negb].
    + unfold bind at 1 2.
      assert (key <> "") as Hne by (intros ->; discriminate Ht).
      pose proof (constructor_succeeds
                    {| Service.apiKey := key;
                       Service.modelName := Some name;
                       Service.safetySettings := None;
                       Service.generationConfig := None |} w Hne) as Hc.
      unfold run in Hc. cbn zeta in Hc. cbn [Service.apiKey Service.modelName
        Service.safetySettings Service.generationConfig] in Hc.
      unfold name in Hc. rewrite !hook_model_name_truthy in Hc. fold name in Hc.
      fold name. rewrite Hc.
      cbn. rewrite <- app_assoc. reflexivity.
    + unfold bind, throw, UseGoogleAI.setError.
      rewrite !emit_run, logged_logged. reflexivity.
  - unfold bind. unfold UseGoogleAI.setError. rewrite !emit_run, logged_logged.
    reflexivity.
Qed.

(** The uninterrupted run of [initializeService] from a world without a
    shared instance. *)
Lemma initializeService_fresh_run (hook : nat)
    (props : option UseGoogleAI.UseGoogleAIProps) (env : option string) (w : World) :
  googleAIService w = None ->
  let key := or_else env GoogleAIConfig.GOOGLE_AI_API_KEY in
  let name := or_else (UseGoogleAI.props_modelName props) GoogleAIConfig.GEMINI_PRO in
  run (UseGoogleAI.initializeService hook props env) w =
  (Returned tt,
   {| googleAIService := Some (service_for key name);
      log := log w ++ [NewGoogleGenerativeAI key;
                       GetGenerativeModel
                         {| Sdk.model := name;
                            Sdk.safetySettings := GoogleAI.getDefaultSafetySettings;
                            Sdk.generationConfig :=
                              GoogleAI.getDefaultGenerationConfig name |};
                       SetIsReady hook true] |}).
Proof.
  intros Hs key name.
  unfold run, UseGoogleAI.initializeService, UseGoogleAI.initializeService_begin,
    bind at 1 2, read_googleAIService.
  rewrite Hs. cbn [ret UseGoogleAI.continue].
  rewrite initializeService_resume_run. unfold GoogleAIConfig.getApiKey. fold key.
  assert (truthy key = true) as ->
    by (unfold key; destruct env as [[|c s]|]; reflexivity).
  reflexivity.
Qed.

(** X6. An initialization that finds no shared instance and runs without
    interruption always succeeds: it resolves the key (override or
    fallback), builds the client and the model handle for the requested
    model name ("gemini-pro" when none is requested) with the default safety
    settings and that name's default configuration, stores the instance,
    and only then reports ready.  It logs no error. *)
Theorem initializeService_fresh (hook : nat)
    (props : option UseGoogleAI.UseGoogleAIProps) (env : option string) (w : World) :
  googleAIService w = None ->
  let key := or_else env GoogleAIConfig.GOOGLE_AI_API_KEY in
  let name := or_else (UseGoogleAI.props_modelName props) GoogleAIConfig.GEMINI_PRO in
  run (UseGoogleAI.initializeService hook props env) w =
  (Returned tt,
   {| googleAIService := Some (service_for key name);
      log := log w ++ [NewGoogleGenerativeAI key;
                       GetGenerativeModel
                         {| Sdk.model := name;
                            Sdk.safetySettings := GoogleAI.getDefaultSafetySettings;
                            Sdk.generationConfig :=
                              GoogleAI.getDefaultGenerationConfig name |};
                       SetIsReady hook true] |}).
Proof. exact (initializeService_fresh_run hook props env w). Qed.

Lemma initializeService_fresh_witness :
  run (UseGoogleAI.initializeService 1
         (Some {| UseGoogleAI.modelName := Some "gemini-2.0-flash" |}) (Some "secret"))
    initial_world =
  (Returned tt,
   {| googleAIService := Some (service_for "secret" "gemini-2.0-flash");
      log := [NewGoogleGenerativeAI "secret";
              GetGenerativeModel
                {| Sdk.model := "gemini-2.0-flash";
                   Sdk.safetySettings := GoogleAI.getDefaultSafetySettings;
                   Sdk.generationConfig := config_gemini_20 |};
              SetIsReady 1 true] |}).
Proof.
  apply (initializeService_fresh 1
           (Some {| UseGoogleAI.modelName := Some "gemini-2.0-flash" |})
           (Some "secret") initial_world).
  reflexivity.
Defined.

Lemma isReady_after_app (hook : nat) (current : bool) (a b : list Event) :
  UseGoogleAI.isReady_after hook current (a ++ b) =
  UseGoogleAI.isReady_after hook (UseGoogleAI.isReady_after hook current a) b.
Proof.
  revert current. induction a as [|ev a IH]; intros current; [reflexivity|].
  destruct ev; cbn; apply IH.
Qed.

Lemma isReady_after_untouched (hook : nat) (current : bool) (evs : list Event) :
  Forall leaves_isReady evs ->
  UseGoogleAI.isReady_after hook current evs = current.
Proof.
  induction 1 as [|ev evs Hev _ IH]; [reflexivity|].
  destruct ev; cbn; try exact IH. destruct Hev.
Qed.

Lemma isReady_logged_untouched (hook : nat) (w : World) (evs : list Event) :
  Forall leaves_isReady evs ->
  UseGoogleAI.isReady hook (logged w evs) = UseGoogleAI.isReady hook w.
Proof.
  intros H. unfold UseGoogleAI.isReady. cbn [logged log].
  rewrite isReady_after_app. apply isReady_after_untouched. exact H.
Qed.

Lemma begin_step (hook : nat) (env : option string) (w : World) :
  instance_or_unchanged w (snd (run (UseGoogleAI.initializeService_begin hook env) w)).
Proof.
  unfold run, UseGoogleAI.initializeService_begin, bind at 1, read_googleAIService.
  destruct (googleAIService w) as [service|] eqn:Hs.
  - left. exists service. exact Hs.
  - right. split; [reflexivity|]. intros h. reflexivity.
Qed.

Lemma resume_step (hook : nat) (props : option UseGoogleAI.UseGoogleAIProps)
    (pending : Promise string) (w : World) :
  instance_or_unchanged w
    (snd (run (UseGoogleAI.initializeService_resume hook props pending) w)).
Proof.
  unfold run. rewrite initializeService_resume_run.
  destruct pending as [key|e]; [destruct (truthy key)|].
  - left. eexists. reflexivity.
  - right. split; [reflexivity|]. intros h.
    apply isReady_logged_untouched. repeat constructor.
  - right. split; [reflexivity|]. intros h.
    apply isReady_logged_untouched. repeat constructor.
Qed.

Lemma generateResponse_step (vendor : Sdk.Vendor) (hook : nat) (prompt : string)
    (w : World) :
  instance_or_unchanged w
    (snd (run (UseGoogleAI.generateResponse vendor hook prompt) w)).
Proof.
  destruct (googleAIService w) as [service|] eqn:Hs.
  - left. exists service. unfold run.
    rewrite (generateResponse_run vendor hook prompt service w Hs).
    destruct (vendor_text _); exact Hs.
  - right.
    rewrite (proj1 (operations_reject_before_initialization vendor hook prompt
                      (fun _ => Returned tt) w Hs)).
    split; [reflexivity|]. intros h. reflexivity.
Qed.

Lemma generateResponseStream_step (vendor : Sdk.Vendor) (hook : nat) (prompt : string)
    (onChunk : Callback) (w : World) :
  instance_or_unchanged w
    (snd (run (UseGoogleAI.generateResponseStream vendor hook prompt onChunk) w)).
Proof.
  destruct (googleAIService w) as [service|] eqn:Hs.
  - left. exists service. unfold run.
    destruct (generateResponseStream_run vendor hook prompt onChunk service w Hs)
      as (during & Hrun & _).
    rewrite Hrun. exact Hs.
  - right.
    rewrite (proj2 (operations_reject_before_initialization vendor hook prompt
                      onChunk w Hs)).
    split; [reflexivity|]. intros h. reflexivity.
Qed.

Lemma startChatSession_step (w : World) :
  instance_or_unchanged w (snd (run UseGoogleAI.startChatSession w)).
Proof.
  unfold run, UseGoogleAI.startChatSession, bind at 1, read_googleAIService.
  destruct (googleAIService w) as [service|] eqn:Hs.
  - left. exists service. exact Hs.
  - right. split; [reflexivity|]. intros h. reflexivity.
Qed.

(** Readiness is only ever reported after the shared instance is stored. *)
Lemma reachable_ready_has_instance (w : World) :
  Reachable w ->
  forall hook, UseGoogleAI.isReady hook w = true ->
  exists service, googleAIService w = Some service.
Proof.
  assert (forall w0 w', instance_or_unchanged w0 w' ->
            (forall hook, UseGoogleAI.isReady hook w0 = true ->
                          exists service, googleAIService w0 = Some service) ->
            forall hook, UseGoogleAI.isReady hook w' = true ->
                         exists service, googleAIService w' = Some service) as Hstep.
  { intros w0 w' [Hsome | [Hsame Hready]] IH hook Hr; [exact Hsome|].
    rewrite Hsame. apply (IH hook). rewrite <- Hready. exact Hr. }
  induction 1 as [|hook env w _ IH|hook props pending w _ IH
                 |vendor hook prompt w _ IH|vendor hook prompt onChunk w _ IH|w _ IH].
  - intros hook Hr. discriminate Hr.
  - apply (Hstep w); [apply begin_step|exact IH].
  - apply (Hstep w); [apply resume_step|exact IH].
  - apply (Hstep w); [apply generateResponse_step|exact IH].
  - apply (Hstep w); [apply generateResponseStream_step|exact IH].
  - apply (Hstep w); [apply startChatSession_step|exact IH].
Qed.

(** X7. In every world the hook's code can reach, however initializations
    overlap and whatever the vendor does, a hook that reports [isReady]
    has a shared instance behind it. *)
Theorem ready_implies_instance (w : World) :
  Reachable w ->
  forall hook, UseGoogleAI.isReady hook w = true ->
  exists service, googleAIService w = Some service.
Proof. exact (reachable_ready_has_instance w). Qed.

Lemma ready_implies_instance_witness :
  exists service,
    googleAIService
      (snd (run (UseGoogleAI.initializeService_resume 1 None (Returned "k"))
              initial_world)) = Some service.
Proof.
  apply (ready_implies_instance
           (snd (run (UseGoogleAI.initializeService_resume 1 None (Returned "k"))
                   initial_world))
           (reach_resume 1 None (Returned "k") reach_start) 1).
  reflexivity.
Defined.

Lemma added_logged {A} (m : M A) (w : World) (evs : list Event) :
  log (snd (run m w)) = (log w ++ evs)%list -> added m w = evs.
Proof.
  intros H. unfold added. rewrite H, skipn_app, skipn_all, Nat.sub_diag.
  reflexivity.
Qed.

(** X8. Changing the requested model after the shared instance exists has
    no effect on where requests go: after an initialization for one model
    and a later one for another, [generateResponse] still sends its request
    on the handle bound to the first model. *)
Theorem model_change_keeps_first_binding (vendor : Sdk.Vendor) (hook : nat)
    (props1 props2 : option UseGoogleAI.UseGoogleAIProps) (env : option string)
    (prompt : string) (w : World) :
  googleAIService w = None ->
  let key := or_else env GoogleAIConfig.GOOGLE_AI_API_KEY in
  let name1 := or_else (UseGoogleAI.props_modelName props1) GoogleAIConfig.GEMINI_PRO in
  exists w1 w2 r w3 rest,
    run (UseGoogleAI.initializeService hook props1 env) w = (Returned tt, w1)
    /\ run (UseGoogleAI.initializeService hook props2 env) w1 = (Returned tt, w2)
    /\ googleAIService w2 = Some (service_for key name1)
    /\ run (UseGoogleAI.generateResponse vendor hook prompt) w2 = (Returned r, w3)
    /\ added (UseGoogleAI.generateResponse vendor hook prompt) w2 =
       ([SetIsLoading hook true; SetError hook None;
         ModelGenerateContent (model (service_for key name1)) prompt] ++ rest)%list
    /\ Sdk.model (Sdk.params (model (service_for key name1))) = name1.
Proof.
  intros Hs key name1.
  pose proof (initializeService_fresh_run hook props1 env w Hs) as H1. cbn zeta in H1.
  fold key name1 in H1.
  match type of H1 with _ = (_, ?x) => set (w1 := x) in * end.
  assert (googleAIService w1 = Some (service_for key name1)) as Hs1 by reflexivity.
  pose proof (initializeService_keeps_existing hook props2 env _ w1 Hs1) as H2.
  set (w2 := logged w1 [SetIsReady hook true]) in *.
  assert (googleAIService w2 = Some (service_for key name1)) as Hs2 by reflexivity.
  pose proof (generateResponse_run vendor hook prompt _ w2 Hs2) as H3.
  exists w1, w2.
  destruct (vendor_text (Sdk.generateContent vendor (model (service_for key name1)) prompt))
    as [t|e]; do 3 eexists;
    (split; [exact H1|]); (split; [exact H2|]); (split; [exact Hs2|]);
    (split; [exact H3|]); (split; [|reflexivity]);
    apply added_logged; unfold run; rewrite H3; cbn [snd logged log app];
    reflexivity.
Qed.

Lemma model_change_keeps_first_binding_witness :
  exists w1 w2 r w3 rest,
    run (UseGoogleAI.initializeService 1
           (Some {| UseGoogleAI.modelName := Some "gemini-pro" |}) None) initial_world
      = (Returned tt, w1)
    /\ run (UseGoogleAI.initializeService 1
              (Some {| UseGoogleAI.modelName := Some "gemini-2.0-flash" |}) None) w1
      = (Returned tt, w2)
    /\ googleAIService w2 =
       Some (service_for (or_else None GoogleAIConfig.GOOGLE_AI_API_KEY)
               (or_else (UseGoogleAI.props_modelName
                           (Some {| UseGoogleAI.modelName := Some "gemini-pro" |}))
                  GoogleAIConfig.GEMINI_PRO))
    /\ run (UseGoogleAI.generateResponse (answering_vendor "hello" [] Sdk.Exhausted) 1 "hi") w2
      = (Returned r, w3)
    /\ added (UseGoogleAI.generateResponse (answering_vendor "hello" [] Sdk.Exhausted) 1 "hi") w2
       = ([SetIsLoading 1 true; SetError 1 None;
           ModelGenerateContent
             (model (service_for (or_else None GoogleAIConfig.GOOGLE_AI_API_KEY)
                       (or_else (UseGoogleAI.props_modelName
                                   (Some {| UseGoogleAI.modelName := Some "gemini-pro" |}))
                          GoogleAIConfig.GEMINI_PRO))) "hi"] ++ rest)%list
    /\ Sdk.model (Sdk.params
         (model (service_for (or_else None GoogleAIConfig.GOOGLE_AI_API_KEY)
                   (or_else (UseGoogleAI.props_modelName
                               (Some {| UseGoogleAI.modelName := Some "gemini-pro" |}))
                      GoogleAIConfig.GEMINI_PRO)))) =
       or_else (UseGoogleAI.props_modelName
                  (Some {| UseGoogleAI.modelName := Some "gemini-pro" |}))
         GoogleAIConfig.GEMINI_PRO.
Proof.
  apply (model_change_keeps_first_binding (answering_vendor "hello" [] Sdk.Exhausted) 1
           (Some {| UseGoogleAI.modelName := Some "gemini-pro" |})
           (Some {| UseGoogleAI.modelName := Some "gemini-2.0-flash" |})
           None "hi" initial_world).
  reflexivity.
Defined.

(* ================================================================== *)
(** ** Chat sessions through the hook *)

Lemma startChat_default_config_witness :
  exists this w1 session w2,
    run (GoogleAI.constructor
           {| Service.apiKey := "k"; Service.modelName := Some "gemini-1.5-flash";
              Service.safetySettings := None;
              Service.generationConfig := None |}) initial_world = (Returned this, w1)
    /\ run (GoogleAI.startChat this None) w1 = (Returned session, w2)
    /\ Sdk.sessionModel session = model this
    /\ Sdk.history (Sdk.sessionParams session) = []
    /\ Sdk.chatGenerationConfig (Sdk.sessionParams session) =
       Sdk.generationConfig (Sdk.params (model this)).
Proof.
  apply (startChat_default_config "k" (Some "gemini-1.5-flash") None initial_world).
  discriminate.
Defined.

(** The hook's [startChatSession] rejects, touching nothing, while no
    shared instance exists.  Once it exists, the session is started on the
    shared instance's model handle, always with an empty history, with the
    default configuration of the instance's model name, and the call logs
    nothing but the vendor's [startChat]: loading and error state are left
    alone. *)
Lemma startChatSession_behaviour (w : World) :
  (googleAIService w = None ->
   run UseGoogleAI.startChatSession w =
   (Threw (Error "Google AI service is not initialized"), w))
  /\ (forall service,
        googleAIService w = Some service ->
        let p := {| Sdk.history := [];
                    Sdk.chatGenerationConfig :=
                      GoogleAI.getDefaultGenerationConfig (modelName service) |} in
        run UseGoogleAI.startChatSession w =
        (Returned {| Sdk.sessionModel := model service; Sdk.sessionParams := p |},
         logged w [ModelStartChat (model service) p])).
Proof.
  split; [intros Hs|intros service Hs p];
    unfold run, UseGoogleAI.startChatSession, bind at 1, read_googleAIService;
    rewrite Hs; reflexivity.
Qed.

Lemma startChatSession_behaviour_witness :
  run UseGoogleAI.startChatSession initial_world =
    (Threw (Error "Google AI service is not initialized"), initial_world)
  /\ run UseGoogleAI.startChatSession ready_world =
    (Returned {| Sdk.sessionModel := model (service_for "k" "gemini-pro");
                 Sdk.sessionParams :=
                   {| Sdk.history := [];
                      Sdk.chatGenerationConfig :=
                        GoogleAI.getDefaultGenerationConfig
                          (modelName (service_for "k" "gemini-pro")) |} |},
     logged ready_world
       [ModelStartChat (model (service_for "k" "gemini-pro"))
          {| Sdk.history := [];
             Sdk.chatGenerationConfig :=
               GoogleAI.getDefaultGenerationConfig
                 (modelName (service_for "k" "gemini-pro")) |}]).
Proof.
  split.
  - apply (proj1 (startChatSession_behaviour initial_world)). reflexivity.
  - apply (proj2 (startChatSession_behaviour ready_world) (service_for "k" "gemini-pro")).
    reflexivity.
Defined.


(* ================================================================== *)
(** ** Streaming, in general *)

Lemma text_chunk_eta (chunk : Sdk.EnhancedGenerateContentResponse) (t : string) :
  Sdk.text chunk = Returned t -> chunk = text_chunk t.
Proof. destruct chunk as [c]. cbn. intros ->. reflexivity. Qed.

(** One iteration of the loop over a stream. *)
Lemma for_await_cons (onChunk : Callback) (c : Sdk.EnhancedGenerateContentResponse)
    (chunks : list Sdk.EnhancedGenerateContentResponse)
    (ending : Sdk.StreamEnd) (w : World) :
  GoogleAI.for_await (c :: chunks) ending (stream_body onChunk) w =
  match Sdk.text c with
  | Returned t =>
      match onChunk t with
      | Returned _ =>
          GoogleAI.for_await chunks ending (stream_body onChunk) (logged w [OnChunk t])
      | Threw e => (Threw e, logged w [OnChunk t])
      end
  | Threw e => (Threw e, w)
  end.
Proof.
  cbn [GoogleAI.for_await]. unfold bind at 1.
  unfold stream_body at 1, invoke, bind, settle.
  destruct (Sdk.text c) as [t|e]; [|reflexivity].
  rewrite emit_run. destruct (onChunk t) as [[]|e]; reflexivity.
Qed.

(** Every run of the loop over a stream ends in one of two ways: it
    returns, and then every chunk had a text, the stream was exhausted and
    every callback invocation returned; or it throws after the callback
    invocations made so far. *)
Lemma for_await_shape (onChunk : Callback)
    (chunks : list Sdk.EnhancedGenerateContentResponse)
    (ending : Sdk.StreamEnd) (w : World) :
  exists texts,
    (GoogleAI.for_await chunks ending (stream_body onChunk) w =
       (Returned tt, logged w (map OnChunk texts))
     /\ chunks = map text_chunk texts
     /\ ending = Sdk.Exhausted
     /\ Forall (fun t => onChunk t = Returned tt) texts)
    \/ (exists e,
          GoogleAI.for_await chunks ending (stream_body onChunk) w =
          (Threw e, logged w (map OnChunk texts))).
Proof.
  revert w. induction chunks as [|c chunks IH]; intros w.
  - exists []. cbn. rewrite logged_nil. destruct ending as [|e].
    + left. repeat split. constructor.
    + right. exists e. reflexivity.
  - rewrite for_await_cons.
    destruct (Sdk.text c) as [t|e] eqn:Ht.
    + destruct (onChunk t) as [[]|e] eqn:Hcb.
      * destruct (IH (logged w [OnChunk t]))
          as (texts & [(Hrun & Hc & He & Hall) | (e & Hrun)]);
          exists (t :: texts); rewrite Hrun, logged_logged.
        -- left. repeat split; try assumption.
           ++ cbn. now rewrite Hc, (text_chunk_eta c t Ht).
           ++ constructor; assumption.
        -- right. exists e. reflexivity.
      * exists [t]. right. exists e. reflexivity.
    + exists []. right. exists e. rewrite logged_nil. reflexivity.
Qed.

(** [generateContentStream], one layer at a time. *)
Lemma generateContentStream_unfold (vendor : Sdk.Vendor) (this : GoogleAIService)
    (prompt : string) (onChunk : Callback) (w : World) :
  GoogleAI.generateContentStream vendor this prompt onChunk w =
  match Sdk.generateContentStream vendor (model this) prompt with
  | Returned result =>
      match GoogleAI.for_await (Sdk.chunks (Sdk.stream result))
              (Sdk.ending (Sdk.stream result)) (stream_body onChunk)
              (logged w [ModelGenerateContentStream (model this) prompt]) with
      | (Returned u, w1) => (Returned u, w1)
      | (Threw e, w1) => (Threw e, logged w1 [ConsoleError "Error in content stream:" e])
      end
  | Threw e =>
      (Threw e,
       logged w [ModelGenerateContentStream (model this) prompt;
                 ConsoleError "Error in content stream:" e])
  end.
Proof.
  unfold GoogleAI.generateContentStream, GoogleAI.model_generateContentStream,
    try_catch, bind at 1 2, await, settle.
  rewrite emit_run.
  destruct (Sdk.generateContentStream vendor (model this) prompt) as [result|e].
  - change (fun chunk => chunkText <- (fun w0 => (Sdk.text chunk, w0)) ;;
                         invoke onChunk chunkText)
      with (stream_body onChunk).
    destruct (GoogleAI.for_await _ _ _ _) as [[u|e] w1]; [reflexivity|].
    unfold bind, throw. rewrite emit_run. reflexivity.
  - unfold bind, throw. rewrite emit_run, logged_logged. reflexivity.
Qed.

(** Every run of [generateContentStream] logs the request, then callback
    invocations; it either returns, under the conditions above, or reports
    the failure on the console and rethrows it. *)
Lemma generateContentStream_shape (vendor : Sdk.Vendor) (this : GoogleAIService)
    (prompt : string) (onChunk : Callback) (w : World) :
  exists texts,
    (GoogleAI.generateContentStream vendor this prompt onChunk w =
       (Returned tt,
        logged w (ModelGenerateContentStream (model this) prompt :: map OnChunk texts))
     /\ Sdk.generateContentStream vendor (model this) prompt =
        Returned {| Sdk.stream := {| Sdk.chunks := map text_chunk texts;
                                     Sdk.ending := Sdk.Exhausted |} |}
     /\ Forall (fun t => onChunk t = Returned tt) texts)
    \/ (exists e,
          GoogleAI.generateContentStream vendor this prompt onChunk w =
          (Threw e,
           logged w (ModelGenerateContentStream (model this) prompt :: map OnChunk texts
                     ++ [ConsoleError "Error in content stream:" e]))).
Proof.
  rewrite generateContentStream_unfold.
  destruct (Sdk.generateContentStream vendor (model this) prompt) as [[[chunks ending]]|e].
  - cbn [Sdk.stream Sdk.chunks Sdk.ending].
    destruct (for_await_shape onChunk chunks ending
                (logged w [ModelGenerateContentStream (model this) prompt]))
      as (texts & [(Hrun & -> & -> & Hall) | (e & Hrun)]);
      exists texts; rewrite Hrun, !logged_logged.
    + left. repeat split. exact Hall.
    + right. exists e. reflexivity.
  - exists []. right. exists e. reflexivity.
Qed.

Lemma for_await_all_returned (onChunk : Callback) (texts : list string) (w : World) :
  Forall (fun t => onChunk t = Returned tt) texts ->
  GoogleAI.for_await (map text_chunk texts) Sdk.Exhausted (stream_body onChunk) w =
  (Returned tt, logged w (map OnChunk texts)).
Proof.
  intros Hall. revert w. induction Hall as [|t texts Ht _ IH]; intros w.
  - cbn. now rewrite logged_nil.
  - cbn [map GoogleAI.for_await]. unfold bind at 1.
    unfold stream_body at 1, invoke, bind, settle. cbn [text_chunk Sdk.text].
    rewrite emit_run, Ht, IH, logged_logged. reflexivity.
Qed.

Lemma map_text_chunk_inj (a b : list string) :
  map text_chunk a = map text_chunk b -> a = b.
Proof.
  revert b. induction a as [|x a IH]; intros [|y b] H; try discriminate H.
  - reflexivity.
  - cbn in H. injection H as Hx Hrest. f_equal; [exact Hx|apply IH; exact Hrest].
Qed.

(** The loop runs through a prefix of chunks that have a text and on which
    the callback returns, invoking the callback once for each, in order. *)
Lemma for_await_prefix (onChunk : Callback) (texts : list string)
    (rest : list Sdk.EnhancedGenerateContentResponse) (ending : Sdk.StreamEnd)
    (w : World) :
  Forall (fun t => onChunk t = Returned tt) texts ->
  GoogleAI.for_await (map text_chunk texts ++ rest) ending (stream_body onChunk) w =
  GoogleAI.for_await rest ending (stream_body onChunk) (logged w (map OnChunk texts)).
Proof.
  intros Hall. revert w. induction Hall as [|t texts Ht _ IH]; intros w.
  - cbn. now rewrite logged_nil.
  - cbn [map app]. rewrite for_await_cons. cbn [text_chunk Sdk.text].
    rewrite Ht, IH, logged_logged. reflexivity.
Qed.

(** C4. For every prompt, every vendor stream and every callback.  Let
    [texts] be chunks that arrived with a text and on which [onChunk]
    returned.  [generateContentStream] has then invoked [onChunk] exactly
    once per such chunk, in arrival order, and what follows is decided by
    what comes next.  If the stream is exhausted there, the call resolves.
    If the stream fails there, or the next chunk's [text()] throws, or
    [onChunk] throws on the next chunk's text, the failure is reported on
    the console and propagated to the caller, after those invocations (and
    the throwing invocation, in the last case), never swallowed.  If the
    request itself is rejected, no invocation is made and the rejection is
    propagated likewise. *)
Theorem generateContentStream_chunks_in_order (vendor : Sdk.Vendor)
    (this : GoogleAIService) (prompt : string) (onChunk : Callback) (w : World) :
  let request := ModelGenerateContentStream (model this) prompt in
  let report := ConsoleError "Error in content stream:" in
  let outcome := run (GoogleAI.generateContentStream vendor this prompt onChunk) w in
  (forall e,
     Sdk.generateContentStream vendor (model this) prompt = Threw e ->
     outcome = (Threw e, logged w [request; report e]))
  /\
  (forall texts rest ending,
     Sdk.generateContentStream vendor (model this) prompt =
       Returned {| Sdk.stream :=
                     {| Sdk.chunks := map text_chunk texts ++ rest;
                        Sdk.ending := ending |} |} ->
     Forall (fun t => onChunk t = Returned tt) texts ->
     (rest = [] -> ending = Sdk.Exhausted ->
      outcome = (Returned tt, logged w (request :: map OnChunk texts)))
     /\ (forall e,
           rest = [] -> ending = Sdk.Failed e ->
           outcome = (Threw e, logged w (request :: map OnChunk texts ++ [report e])))
     /\ (forall chunk later e,
           rest = chunk :: later -> Sdk.text chunk = Threw e ->
           outcome = (Threw e, logged w (request :: map OnChunk texts ++ [report e])))
     /\ (forall chunk later t e,
           rest = chunk :: later -> Sdk.text chunk = Returned t ->
           onChunk t = Threw e ->
           outcome =
           (Threw e,
            logged w (request :: map OnChunk texts ++ [OnChunk t; report e])))).
Proof.
  cbv zeta. unfold run. split.
  - intros e Hvendor. rewrite generateContentStream_unfold, Hvendor. reflexivity.
  - intros texts rest ending Hvendor Hall.
    rewrite generateContentStream_unfold, Hvendor.
    cbn [Sdk.stream Sdk.chunks Sdk.ending].
    rewrite (for_await_prefix onChunk texts rest ending _ Hall), logged_logged.
    split; [|split; [|split]].
    + intros -> ->. reflexivity.
    + intros e -> ->. cbn [GoogleAI.for_await throw].
      rewrite logged_logged. cbn [app]. reflexivity.
    + intros chunk later e -> Htext. rewrite for_await_cons, Htext.
      rewrite logged_logged. cbn [app]. reflexivity.
    + intros chunk later t e -> Htext Hcb. rewrite for_await_cons, Htext, Hcb.
      rewrite !logged_logged. cbn [app]. reflexivity.
Qed.

Lemma generateContentStream_chunks_in_order_witness :
  run (GoogleAI.generateContentStream (answering_vendor "" ["A"; "B"; "C"] Sdk.Exhausted)
         (service_for "k" "gemini-pro") "hi" (fun _ => Returned tt)) initial_world =
    (Returned tt,
     logged initial_world
       (ModelGenerateContentStream (model (service_for "k" "gemini-pro")) "hi"
        :: map OnChunk ["A"; "B"; "C"]))
  /\
  run (GoogleAI.generateContentStream
         (answering_vendor "" ["A"] (Sdk.Failed (Error "connection reset")))
         (service_for "k" "gemini-pro") "hi" (fun _ => Returned tt)) initial_world =
    (Threw (Error "connection reset"),
     logged initial_world
       (ModelGenerateContentStream (model (service_for "k" "gemini-pro")) "hi"
        :: map OnChunk ["A"]
           ++ [ConsoleError "Error in content stream:" (Error "connection reset")])).
Proof.
  split.
  - apply (proj1 (proj2 (generateContentStream_chunks_in_order
             (answering_vendor "" ["A"; "B"; "C"] Sdk.Exhausted)
             (service_for "k" "gemini-pro") "hi" (fun _ => Returned tt) initial_world)
             ["A"; "B"; "C"] [] Sdk.Exhausted eq_refl
             (proj2 (Forall_forall _ _) (fun _ _ => eq_refl)))).
    + reflexivity.
    + reflexivity.
  - apply (proj1 (proj2 (proj2 (generateContentStream_chunks_in_order
             (answering_vendor "" ["A"] (Sdk.Failed (Error "connection reset")))
             (service_for "k" "gemini-pro") "hi" (fun _ => Returned tt) initial_world)
             ["A"] [] (Sdk.Failed (Error "connection reset")) eq_refl
             (proj2 (Forall_forall _ _) (fun _ _ => eq_refl))))
             (Error "connection reset")).
    + reflexivity.
    + reflexivity.
Defined.

(** X13. [generateContentStream] resolves in exactly one situation: the
    vendor returned a stream, every chunk of it had a text, the stream was
    exhausted without failure, and every invocation of the callback
    returned.  It then has invoked the callback once per chunk, in order.
    In every other situation it rejects: it never resolves after a failure
    of the request, of the stream, of a chunk or of the callback. *)
Theorem generateContentStream_resolves_iff (vendor : Sdk.Vendor)
    (this : GoogleAIService) (prompt : string) (onChunk : Callback) (w w' : World) :
  run (GoogleAI.generateContentStream vendor this prompt onChunk) w = (Returned tt, w')
  <->
  exists texts,
    Sdk.generateContentStream vendor (model this) prompt =
      Returned {| Sdk.stream := {| Sdk.chunks := map text_chunk texts;
                                   Sdk.ending := Sdk.Exhausted |} |}
    /\ Forall (fun t => onChunk t = Returned tt) texts
    /\ w' = logged w (ModelGenerateContentStream (model this) prompt :: map OnChunk texts).
Proof.
  unfold run.
  destruct (generateContentStream_shape vendor this prompt onChunk w)
    as (texts & [(Hrun & Hv & Hall) | (e & Hrun)]); rewrite Hrun; split.
  - intros H. injection H as <-. exists texts. repeat split; assumption.
  - intros (texts' & Hv' & _ & ->). rewrite Hv in Hv'.
    injection Hv' as Heq. apply map_text_chunk_inj in Heq. now subst.
  - discriminate.
  - intros (texts' & Hv' & Hall' & _). exfalso.
    revert Hrun. rewrite generateContentStream_unfold, Hv'.
    cbn [Sdk.stream Sdk.chunks Sdk.ending].
    rewrite (for_await_all_returned onChunk texts' _ Hall'). discriminate.
Qed.

(* ================================================================== *)
(** ** The hook's streaming operation, and what no operation does *)

(** The hook's [generateResponseStream] around the service's method. *)
Lemma generateResponseStream_unfold (vendor : Sdk.Vendor) (hook : nat)
    (prompt : string) (onChunk : Callback) (service : GoogleAIService) (w : World) :
  googleAIService w = Some service ->
  UseGoogleAI.generateResponseStream vendor hook prompt onChunk w =
  match GoogleAI.generateContentStream vendor service prompt onChunk
          (logged w [SetIsLoading hook true; SetError hook None]) with
  | (Returned _, w1) => (Returned tt, logged w1 [SetIsLoading hook false])
  | (Threw e, w1) =>
      (Returned tt,
       logged w1 [SetError hook (Some (message_or e "Unknown error occurred"));
                  SetIsLoading hook false])
  end.
Proof.
  intros Hs.
  unfold UseGoogleAI.generateResponseStream, bind at 1, read_googleAIService.
  rewrite Hs. unfold UseGoogleAI.setIsLoading, UseGoogleAI.setError.
  unfold bind at 1. rewrite emit_run. unfold bind at 1. rewrite emit_run.
  unfold try_finally, try_catch. rewrite !logged_logged. cbn [app].
  destruct (GoogleAI.generateContentStream vendor service prompt onChunk _)
    as [[[]|e] w1].
  - rewrite emit_run. reflexivity.
  - rewrite !emit_run, logged_logged. reflexivity.
Qed.

Lemma isLoading_after_last (hook : nat) (current b : bool) (evs : list Event) :
  UseGoogleAI.isLoading_after hook current (evs ++ [SetIsLoading hook b]) = b.
Proof. rewrite isLoading_after_app. cbn. now rewrite Nat.eqb_refl. Qed.

Lemma error_after_chunks (hook : nat) (current : option string) (texts : list string) :
  UseGoogleAI.error_after hook current (map OnChunk texts) = current.
Proof. induction texts as [|t texts IH]; [reflexivity|exact IH]. Qed.

(** The run of the hook's [generateResponseStream] for a callback that
    returns normally and a stream of chunk texts. *)
Lemma generateResponseStream_run_texts (vendor : Sdk.Vendor) (hook : nat)
    (prompt : string) (onChunk : Callback) (texts : list string)
    (ending : Sdk.StreamEnd) (service : GoogleAIService) (w : World) :
  googleAIService w = Some service ->
  (forall t, onChunk t = Returned tt) ->
  Sdk.generateContentStream vendor (model service) prompt =
    Returned {| Sdk.stream :=
                  {| Sdk.chunks := map text_chunk texts; Sdk.ending := ending |} |} ->
  UseGoogleAI.generateResponseStream vendor hook prompt onChunk w =
    (Returned tt,
     logged w ([SetIsLoading hook true; SetError hook None;
                ModelGenerateContentStream (model service) prompt]
               ++ map OnChunk texts
               ++ match ending with
                  | Sdk.Exhausted => []
                  | Sdk.Failed e =>
                      [ConsoleError "Error in content stream:" e;
                       SetError hook (Some (message_or e "Unknown error occurred"))]
                  end
               ++ [SetIsLoading hook false])).
Proof.
  intros Hs Hcb Hvendor.
  rewrite (generateResponseStream_unfold vendor hook prompt onChunk service w Hs).
  rewrite generateContentStream_unfold, Hvendor.
  cbn [Sdk.stream Sdk.chunks Sdk.ending].
  rewrite (for_await_texts onChunk texts ending _ Hcb).
  destruct ending as [|e]; rewrite !logged_logged; cbn [app];
    rewrite <- ?app_assoc; reflexivity.
Qed.

(** X12. Once the shared instance exists, the hook's
    [generateResponseStream] resolves even when the stream fails.  With a
    callback that returns normally and a stream delivering the given chunk
    texts, the callback is invoked once per text, in order; if the stream is
    exhausted the error state ends cleared, and if it fails with [e] after
    those texts the error state ends holding the message of [e].  In both
    cases [isLoading] ends false. *)
Theorem generateResponseStream_swallows_failure (vendor : Sdk.Vendor) (hook : nat)
    (prompt : string) (onChunk : Callback) (texts : list string)
    (ending : Sdk.StreamEnd) (service : GoogleAIService) (w : World) :
  googleAIService w = Some service ->
  (forall t, onChunk t = Returned tt) ->
  Sdk.generateContentStream vendor (model service) prompt =
    Returned {| Sdk.stream :=
                  {| Sdk.chunks := map text_chunk texts; Sdk.ending := ending |} |} ->
  let w' := snd (run (UseGoogleAI.generateResponseStream vendor hook prompt onChunk) w) in
  run (UseGoogleAI.generateResponseStream vendor hook prompt onChunk) w =
    (Returned tt,
     logged w ([SetIsLoading hook true; SetError hook None;
                ModelGenerateContentStream (model service) prompt]
               ++ map OnChunk texts
               ++ match ending with
                  | Sdk.Exhausted => []
                  | Sdk.Failed e =>
                      [ConsoleError "Error in content stream:" e;
                       SetError hook (Some (message_or e "Unknown error occurred"))]
                  end
               ++ [SetIsLoading hook false]))
  /\ UseGoogleAI.error hook w' =
     match ending with
     | Sdk.Exhausted => None
     | Sdk.Failed e => Some (message_or e "Unknown error occurred")
     end
  /\ UseGoogleAI.isLoading hook w' = false.
Proof.
  intros Hs Hcb Hvendor w'.
  pose proof (generateResponseStream_run_texts vendor hook prompt onChunk texts ending
                service w Hs Hcb Hvendor) as Hrun.
  change (UseGoogleAI.generateResponseStream vendor hook prompt onChunk w)
    with (run (UseGoogleAI.generateResponseStream vendor hook prompt onChunk) w) in Hrun.
  split; [exact Hrun|]. unfold w'. rewrite Hrun. cbn [snd]. split.
  - unfold UseGoogleAI.error. cbn [logged log].
    rewrite !error_after_app, error_after_chunks.
    destruct ending as [|e]; cbn; rewrite ?Nat.eqb_refl; reflexivity.
  - unfold UseGoogleAI.isLoading. cbn [logged log].
    rewrite !app_assoc. apply isLoading_after_last.
Qed.

Lemma generateResponseStream_swallows_failure_witness :
  UseGoogleAI.error 1
    (snd (run (UseGoogleAI.generateResponseStream
                 (answering_vendor "" ["A"; "B"] (Sdk.Failed (Error "connection reset")))
                 1 "hi" (fun _ => Returned tt)) ready_world))
  = Some "connection reset".
Proof.
  apply (generateResponseStream_swallows_failure
           (answering_vendor "" ["A"; "B"] (Sdk.Failed (Error "connection reset")))
           1 "hi" (fun _ => Returned tt) ["A"; "B"]
           (Sdk.Failed (Error "connection reset"))
           (service_for "k" "gemini-pro") ready_world).
  - reflexivity.
  - reflexivity.
  - reflexivity.
Defined.

(** No method of the service and no operation of the hook assigns the
    module-level variable. *)
Lemma shared_instance_kept (vendor : Sdk.Vendor)
    (this : GoogleAIService) (hook : nat) (prompt : string) (onChunk : Callback)
    (history : option (list Sdk.Content)) (w : World) :
  googleAIService (snd (run (GoogleAI.generateContent vendor this prompt) w))
    = googleAIService w
  /\ googleAIService (snd (run (GoogleAI.generateContentStream vendor this prompt onChunk) w))
    = googleAIService w
  /\ googleAIService (snd (run (GoogleAI.startChat this history) w)) = googleAIService w
  /\ googleAIService (snd (run (UseGoogleAI.generateResponse vendor hook prompt) w))
    = googleAIService w
  /\ googleAIService
       (snd (run (UseGoogleAI.generateResponseStream vendor hook prompt onChunk) w))
    = googleAIService w
  /\ googleAIService (snd (run UseGoogleAI.startChatSession w)) = googleAIService w.
Proof.
  unfold run. split; [|split; [|split; [|split; [|split]]]].
  - rewrite generateContent_run. destruct (vendor_text _); reflexivity.
  - destruct (generateContentStream_shape vendor this prompt onChunk w)
      as (texts & [(Hrun & _) | (e & Hrun)]); rewrite Hrun; reflexivity.
  - reflexivity.
  - destruct (googleAIService w) as [service|] eqn:Hs.
    + rewrite (generateResponse_run vendor hook prompt service w Hs).
      destruct (vendor_text _); exact Hs.
    + unfold UseGoogleAI.generateResponse, bind at 1, read_googleAIService.
      rewrite Hs. exact Hs.
  - destruct (googleAIService w) as [service|] eqn:Hs.
    + destruct (generateResponseStream_run vendor hook prompt onChunk service w Hs)
        as (during & Hrun & _).
      rewrite Hrun. exact Hs.
    + unfold UseGoogleAI.generateResponseStream, bind at 1, read_googleAIService.
      rewrite Hs. exact Hs.
  - unfold UseGoogleAI.startChatSession, bind at 1, read_googleAIService.
    destruct (googleAIService w) as [service|] eqn:Hs; exact Hs.
Qed.

(** X14. Only initialization ever assigns the shared instance: the three
    methods of the service and the three operations of the hook leave the
    module-level variable exactly as they found it, on every path. *)
Theorem operations_keep_shared_instance (vendor : Sdk.Vendor)
    (this : GoogleAIService) (hook : nat) (prompt : string) (onChunk : Callback)
    (history : option (list Sdk.Content)) (w : World) :
  googleAIService (snd (run (GoogleAI.generateContent vendor this prompt) w))
    = googleAIService w
  /\ googleAIService (snd (run (GoogleAI.generateContentStream vendor this prompt onChunk) w))
    = googleAIService w
  /\ googleAIService (snd (run (GoogleAI.startChat this history) w)) = googleAIService w
  /\ googleAIService (snd (run (UseGoogleAI.generateResponse vendor hook prompt) w))
    = googleAIService w
  /\ googleAIService
       (snd (run (UseGoogleAI.generateResponseStream vendor hook prompt onChunk) w))
    = googleAIService w
  /\ googleAIService (snd (run UseGoogleAI.startChatSession w)) = googleAIService w.
Proof.
  exact (shared_instance_kept vendor this hook prompt onChunk history w).
Qed.

Lemma vendor_requests_app (a b : list Event) :
  vendor_requests (a ++ b) = (vendor_requests a + vendor_requests b)%nat.
Proof.
  induction a as [|ev a IH]; [reflexivity|].
  destruct ev; cbn; rewrite IH; reflexivity.
Qed.

Lemma vendor_requests_chunks (texts : list string) :
  vendor_requests (map OnChunk texts) = 0%nat.
Proof. induction texts as [|t texts IH]; [reflexivity|exact IH]. Qed.

(** X15. No operation of the hook retries or sends a second request: once
    the shared instance exists, each call of [generateResponse] or
    [generateResponseStream] sends exactly one request to the vendor,
    whether it succeeds or fails; before the shared instance exists it sends
    none. *)
Theorem one_vendor_request_per_call (vendor : Sdk.Vendor) (hook : nat)
    (prompt : string) (onChunk : Callback) (w : World) :
  (forall service,
     googleAIService w = Some service ->
     vendor_requests (added (UseGoogleAI.generateResponse vendor hook prompt) w) = 1%nat
     /\ vendor_requests
          (added (UseGoogleAI.generateResponseStream vendor hook prompt onChunk) w) = 1%nat)
  /\ (googleAIService w = None ->
      vendor_requests (added (UseGoogleAI.generateResponse vendor hook prompt) w) = 0%nat
      /\ vendor_requests
           (added (UseGoogleAI.generateResponseStream vendor hook prompt onChunk) w) = 0%nat).
Proof.
  split.
  - intros service Hs. split.
    + pose proof (generateResponse_run vendor hook prompt service w Hs) as Hrun.
      destruct (vendor_text _) as [t|e];
        erewrite added_logged by (unfold run; rewrite Hrun; reflexivity).
      * reflexivity.
      * destruct (truthy _); reflexivity.
    + pose proof (generateResponseStream_unfold vendor hook prompt onChunk service w Hs)
        as Hrun.
      destruct (generateContentStream_shape vendor service prompt onChunk
                  (logged w [SetIsLoading hook true; SetError hook None]))
        as (texts & [(Hin & _) | (e & Hin)]);
        rewrite Hin, !logged_logged in Hrun;
        erewrite added_logged by (unfold run; rewrite Hrun; reflexivity);
        rewrite !vendor_requests_app; cbn [app vendor_requests];
        rewrite ?vendor_requests_app, vendor_requests_chunks; reflexivity.
  - intros Hs.
    destruct (operations_reject_before_initialization vendor hook prompt onChunk w Hs)
      as [H1 H2].
    unfold added. rewrite H1, H2. cbn [snd]. rewrite skipn_all. split; reflexivity.
Qed.

Lemma one_vendor_request_per_call_witness :
  vendor_requests
    (added (UseGoogleAI.generateResponse (rejecting_vendor (Error "quota exceeded")) 1 "hi")
       ready_world) = 1%nat
  /\ vendor_requests
       (added (UseGoogleAI.generateResponseStream
                 (rejecting_vendor (Error "quota exceeded")) 1 "hi" (fun _ => Returned tt))
          ready_world) = 1%nat.
Proof.
  apply (proj1 (one_vendor_request_per_call (rejecting_vendor (Error "quota exceeded"))
                  1 "hi" (fun _ => Returned tt) ready_world)
           (service_for "k" "gemini-pro")).
  reflexivity.
Defined.

(* ================================================================== *)
(** ** The demo component *)

Lemma string_app_assoc (a b c : string) : ((a ++ b) ++ c)%string = (a ++ (b ++ c))%string.
Proof. induction a as [|x a IH]; cbn; [reflexivity|now rewrite IH]. Qed.

Lemma string_app_empty_r (a : string) : (a ++ "")%string = a.
Proof. induction a as [|x a IH]; cbn; [reflexivity|now rewrite IH]. Qed.

Lemma appendChunks_fold (prev : string) (texts : list string) :
  GoogleAIDemo.appendChunks prev texts =
  (prev ++ fold_right String.append "" texts)%string.
Proof.
  unfold GoogleAIDemo.appendChunks. revert prev.
  induction texts as [|t texts IH]; intros prev; cbn.
  - now rewrite string_app_empty_r.
  - now rewrite IH, string_app_assoc.
Qed.

Lemma chunkTexts_app (a b : list Event) :
  GoogleAIDemo.chunkTexts (a ++ b) =
  (GoogleAIDemo.chunkTexts a ++ GoogleAIDemo.chunkTexts b)%list.
Proof.
  induction a as [|ev a IH]; [reflexivity|].
  destruct ev; cbn; rewrite IH; reflexivity.
Qed.

Lemma chunkTexts_chunks (texts : list string) :
  GoogleAIDemo.chunkTexts (map OnChunk texts) = texts.
Proof. induction texts as [|t texts IH]; cbn; [reflexivity|now rewrite IH]. Qed.

(** X16. The banner chosen by [updateModelInfo] and the default
    configuration chosen by the service classify every model name alike:
    the 2.0 banner goes with the 2.0 configuration, the 1.5 banner with the
    1.5 configuration, and the vision and standard banners with the base
    configuration.  [updateModelInfo] changes nothing but the banner. *)
Theorem model_info_matches_config_family (d : GoogleAIDemo.State) :
  let d' := GoogleAIDemo.updateModelInfo d in
  let c := GoogleAI.getDefaultGenerationConfig (GoogleAIDemo.selectedModel d) in
  (GoogleAIDemo.modelInfo d' = GoogleAIDemo.info_gemini_20 <-> c = config_gemini_20)
  /\ (GoogleAIDemo.modelInfo d' = GoogleAIDemo.info_gemini_15 <-> c = config_gemini_15)
  /\ (GoogleAIDemo.modelInfo d' = GoogleAIDemo.info_vision
      \/ GoogleAIDemo.modelInfo d' = GoogleAIDemo.info_standard
      <-> c = GoogleAI.baseConfig)
  /\ d' = GoogleAIDemo.setModelInfo (GoogleAIDemo.modelInfo d') d.
Proof.
  unfold GoogleAIDemo.updateModelInfo, GoogleAI.getDefaultGenerationConfig.
  cbn zeta.
  destruct (includes (GoogleAIDemo.selectedModel d) "gemini-2.0");
    [|destruct (includes (GoogleAIDemo.selectedModel d) "gemini-1.5");
      [|destruct (includes (GoogleAIDemo.selectedModel d) "gemini-pro-vision")]];
    cbn [GoogleAIDemo.setModelInfo GoogleAIDemo.modelInfo];
    (split; [|split; [|split; [|reflexivity]]]);
    split; intros H; try reflexivity; try discriminate H;
    try (destruct H as [H|H]; discriminate H); auto.
Qed.

(** The run of [handleGenerateResponse] for a prompt that is not blank,
    once the shared instance exists. *)
Lemma handleGenerateResponse_ready (trim : string -> string) (vendor : Sdk.Vendor)
    (hook : nat) (d : GoogleAIDemo.State) (service : GoogleAIService) (w : World) :
  trim (GoogleAIDemo.prompt d) <> "" ->
  googleAIService w = Some service ->
  fst (GoogleAIDemo.handleGenerateResponse trim vendor hook d w) =
  GoogleAIDemo.setResponse
    match vendor_text (Sdk.generateContent vendor (model service) (GoogleAIDemo.prompt d)) with
    | Returned t => t
    | Threw _ => ""
    end
    (GoogleAIDemo.setStreamingResponse "" (GoogleAIDemo.setResponse "" d)).
Proof.
  intros Hp Hs. unfold GoogleAIDemo.handleGenerateResponse.
  destruct (truthy (trim (GoogleAIDemo.prompt d))) eqn:Ht;
    [|apply truthy_false_iff in Ht; contradiction].
  cbn [negb]. rewrite (generateResponse_run vendor hook _ service w Hs).
  destruct (vendor_text _); reflexivity.
Qed.

(** X18. [handleGenerateResponse] does nothing at all for a blank prompt.
    For any other prompt it clears both displayed responses first; if no
    shared instance exists it shows the alert and displays nothing; once
    the shared instance exists it never shows the alert, not even when the
    vendor fails: it displays the vendor's text on success and the empty
    string on failure. *)
Theorem handleGenerateResponse_outcome (trim : string -> string) (vendor : Sdk.Vendor)
    (hook : nat) (d : GoogleAIDemo.State) (w : World) :
  let d' := fst (GoogleAIDemo.handleGenerateResponse trim vendor hook d w) in
  (trim (GoogleAIDemo.prompt d) = "" ->
   GoogleAIDemo.handleGenerateResponse trim vendor hook d w = (d, w))
  /\ (trim (GoogleAIDemo.prompt d) <> "" -> googleAIService w = None ->
      GoogleAIDemo.alerts d' =
        (GoogleAIDemo.alerts d ++
         [("Error",
           "Failed to generate response. Please check your API key and try again.")])%list
      /\ GoogleAIDemo.response d' = ""
      /\ GoogleAIDemo.streamingResponse d' = "")
  /\ (forall service,
        trim (GoogleAIDemo.prompt d) <> "" -> googleAIService w = Some service ->
        GoogleAIDemo.alerts d' = GoogleAIDemo.alerts d
        /\ GoogleAIDemo.streamingResponse d' = ""
        /\ GoogleAIDemo.response d' =
           match vendor_text (Sdk.generateContent vendor (model service)
                                (GoogleAIDemo.prompt d)) with
           | Returned t => t
           | Threw _ => ""
           end).
Proof.
  cbn zeta. split; [|split].
  - intros Hp. unfold GoogleAIDemo.handleGenerateResponse. rewrite Hp. reflexivity.
  - intros Hp Hs. unfold GoogleAIDemo.handleGenerateResponse.
    destruct (truthy (trim (GoogleAIDemo.prompt d))) eqn:Ht;
      [|apply truthy_false_iff in Ht; contradiction].
    cbn [negb].
    pose proof (proj1 (operations_reject_before_initialization vendor hook
                         (GoogleAIDemo.prompt d) (fun _ => Returned tt) w Hs)) as Hrun.
    unfold run in Hrun. rewrite Hrun. repeat split.
  - intros service Hp Hs.
    rewrite (handleGenerateResponse_ready trim vendor hook d service w Hp Hs).
    repeat split.
Qed.

Lemma handleGenerateResponse_outcome_witness :
  GoogleAIDemo.handleGenerateResponse (fun s => s)
    (rejecting_vendor (Error "API key not valid")) 1
    GoogleAIDemo.initial_state ready_world = (GoogleAIDemo.initial_state, ready_world)
  /\ GoogleAIDemo.alerts
       (fst (GoogleAIDemo.handleGenerateResponse (fun s => s)
               (rejecting_vendor (Error "API key not valid")) 1
               (GoogleAIDemo.setPrompt "hi" GoogleAIDemo.initial_state) ready_world))
     = GoogleAIDemo.alerts (GoogleAIDemo.setPrompt "hi" GoogleAIDemo.initial_state).
Proof.
  split.
  - apply (proj1 (handleGenerateResponse_outcome (fun s => s)
                    (rejecting_vendor (Error "API key not valid")) 1
                    GoogleAIDemo.initial_state ready_world)).
    reflexivity.
  - apply (proj2 (proj2 (handleGenerateResponse_outcome (fun s => s)
                    (rejecting_vendor (Error "API key not valid")) 1
                    (GoogleAIDemo.setPrompt "hi" GoogleAIDemo.initial_state) ready_world))
             (service_for "k" "gemini-pro")).
    + discriminate.
    + reflexivity.
Defined.

(** The run of [handleStreamResponse] for a prompt that is not blank, once
    the shared instance exists: the hook never rejects, so the handler's
    catch block is not entered. *)
Lemma handleStreamResponse_ready (trim : string -> string) (vendor : Sdk.Vendor)
    (hook : nat) (d : GoogleAIDemo.State) (service : GoogleAIService) (w : World) :
  trim (GoogleAIDemo.prompt d) <> "" ->
  googleAIService w = Some service ->
  fst (GoogleAIDemo.handleStreamResponse trim vendor hook d w) =
  GoogleAIDemo.setIsStreaming false
    (GoogleAIDemo.setStreamingResponse
       (GoogleAIDemo.appendChunks ""
          (GoogleAIDemo.chunkTexts
             (added (UseGoogleAI.generateResponseStream vendor hook
                       (GoogleAIDemo.prompt d) GoogleAIDemo.onChunk) w)))
       (GoogleAIDemo.setIsStreaming true
          (GoogleAIDemo.setStreamingResponse "" (GoogleAIDemo.setResponse "" d)))).
Proof.
  intros Hp Hs. unfold GoogleAIDemo.handleStreamResponse, added, run.
  destruct (truthy (trim (GoogleAIDemo.prompt d))) eqn:Ht;
    [|apply truthy_false_iff in Ht; contradiction].
  cbn [negb].
  destruct (generateResponseStream_run vendor hook (GoogleAIDemo.prompt d)
              GoogleAIDemo.onChunk service w Hs) as (during & Hrun & _).
  rewrite Hrun. reflexivity.
Qed.

(** X19. [handleStreamResponse] does nothing at all for a blank prompt.
    For any other prompt: if no shared instance exists it shows the alert
    and displays nothing; once the shared instance exists it never shows
    the alert, and when the vendor streams the chunk texts [texts] the
    displayed streaming response ends as their concatenation in arrival
    order, also when the stream fails after them.  On every path of a
    non-blank call [isStreaming] ends false and the one-shot response ends
    empty. *)
Theorem handleStreamResponse_outcome (trim : string -> string) (vendor : Sdk.Vendor)
    (hook : nat) (d : GoogleAIDemo.State) (w : World) :
  let d' := fst (GoogleAIDemo.handleStreamResponse trim vendor hook d w) in
  (trim (GoogleAIDemo.prompt d) = "" ->
   GoogleAIDemo.handleStreamResponse trim vendor hook d w = (d, w))
  /\ (trim (GoogleAIDemo.prompt d) <> "" -> googleAIService w = None ->
      GoogleAIDemo.alerts d' =
        (GoogleAIDemo.alerts d ++
         [("Error",
           "Failed to stream response. Please check your API key and try again.")])%list
      /\ GoogleAIDemo.streamingResponse d' = ""
      /\ GoogleAIDemo.response d' = ""
      /\ GoogleAIDemo.isStreaming d' = false)
  /\ (forall service,
        trim (GoogleAIDemo.prompt d) <> "" -> googleAIService w = Some service ->
        GoogleAIDemo.alerts d' = GoogleAIDemo.alerts d
        /\ GoogleAIDemo.response d' = ""
        /\ GoogleAIDemo.isStreaming d' = false)
  /\ (forall service texts ending,
        trim (GoogleAIDemo.prompt d) <> "" -> googleAIService w = Some service ->
        Sdk.generateContentStream vendor (model service) (GoogleAIDemo.prompt d) =
          Returned {| Sdk.stream :=
                        {| Sdk.chunks := map text_chunk texts;
                           Sdk.ending := ending |} |} ->
        GoogleAIDemo.streamingResponse d' = fold_right String.append "" texts).
Proof.
  cbn zeta. split; [|split; [|split]].
  - intros Hp. unfold GoogleAIDemo.handleStreamResponse. rewrite Hp. reflexivity.
  - intros Hp Hs. unfold GoogleAIDemo.handleStreamResponse.
    destruct (truthy (trim (GoogleAIDemo.prompt d))) eqn:Ht;
      [|apply truthy_false_iff in Ht; contradiction].
    cbn [negb].
    pose proof (proj2 (operations_reject_before_initialization vendor hook
                         (GoogleAIDemo.prompt d) GoogleAIDemo.onChunk w Hs)) as Hrun.
    unfold run in Hrun. rewrite Hrun. cbn [fst]. rewrite skipn_all.
    repeat split.
  - intros service Hp Hs.
    rewrite (handleStreamResponse_ready trim vendor hook d service w Hp Hs).
    repeat split.
  - intros service texts ending Hp Hs Hvendor.
    rewrite (handleStreamResponse_ready trim vendor hook d service w Hp Hs).
    cbn [GoogleAIDemo.streamingResponse GoogleAIDemo.setIsStreaming
         GoogleAIDemo.setStreamingResponse].
    erewrite added_logged.
    2:{ unfold run.
        rewrite (generateResponseStream_run_texts vendor hook (GoogleAIDemo.prompt d)
                   GoogleAIDemo.onChunk texts ending service w Hs
                   (fun _ => eq_refl) Hvendor).
        reflexivity. }
    rewrite !chunkTexts_app, chunkTexts_chunks, appendChunks_fold.
    destruct ending; cbn; rewrite app_nil_r; reflexivity.
Qed.

Lemma handleStreamResponse_outcome_witness :
  GoogleAIDemo.streamingResponse
    (fst (GoogleAIDemo.handleStreamResponse (fun s => s)
            (answering_vendor "" ["Hel"; "lo"] (Sdk.Failed (Error "connection reset"))) 1
            (GoogleAIDemo.setPrompt "hi" GoogleAIDemo.initial_state) ready_world))
  = fold_right String.append "" ["Hel"; "lo"].
Proof.
  apply (proj2 (proj2 (proj2 (handleStreamResponse_outcome (fun s => s)
           (answering_vendor "" ["Hel"; "lo"] (Sdk.Failed (Error "connection reset"))) 1
           (GoogleAIDemo.setPrompt "hi" GoogleAIDemo.initial_state) ready_world)))
           (service_for "k" "gemini-pro") ["Hel"; "lo"]
           (Sdk.Failed (Error "connection reset"))).
  - discriminate.
  - reflexivity.
  - reflexivity.
Defined.

(** X20. In every world the hook's code can reach, a press on an enabled
    button never ends in the "check your API key" alert, whatever the
    prompt and whatever the vendor does: an enabled Generate button means
    the hook is ready, hence that the shared instance exists, and then the
    hook turns every failure into its own error state.  An enabled Stream
    button moreover leaves [isStreaming] false when the handler ends. *)
Theorem enabled_buttons_never_alert (trim : string -> string) (vendor : Sdk.Vendor)
    (hook : nat) (d : GoogleAIDemo.State) (w : World) :
  Reachable w ->
  (GoogleAIDemo.generateDisabled hook w = false ->
   GoogleAIDemo.alerts (fst (GoogleAIDemo.handleGenerateResponse trim vendor hook d w))
   = GoogleAIDemo.alerts d)
  /\ (GoogleAIDemo.streamDisabled hook d w = false ->
      GoogleAIDemo.alerts (fst (GoogleAIDemo.handleStreamResponse trim vendor hook d w))
      = GoogleAIDemo.alerts d
      /\ GoogleAIDemo.isStreaming
           (fst (GoogleAIDemo.handleStreamResponse trim vendor hook d w)) = false).
Proof.
  intros Hreach. split.
  - unfold GoogleAIDemo.generateDisabled. intros Hen.
    destruct (UseGoogleAI.isReady hook w) eqn:Hr; [|discriminate Hen].
    destruct (reachable_ready_has_instance w Hreach hook Hr) as (service & Hs).
    destruct (String.string_dec (trim (GoogleAIDemo.prompt d)) "") as [Hp|Hp].
    + unfold GoogleAIDemo.handleGenerateResponse. rewrite Hp. reflexivity.
    + rewrite (handleGenerateResponse_ready trim vendor hook d service w Hp Hs).
      reflexivity.
  - unfold GoogleAIDemo.streamDisabled. intros Hen.
    destruct (UseGoogleAI.isReady hook w) eqn:Hr; [|discriminate Hen].
    destruct (UseGoogleAI.isLoading hook w); [discriminate Hen|].
    cbn in Hen.
    destruct (reachable_ready_has_instance w Hreach hook Hr) as (service & Hs).
    destruct (String.string_dec (trim (GoogleAIDemo.prompt d)) "") as [Hp|Hp].
    + unfold GoogleAIDemo.handleStreamResponse. rewrite Hp. cbn. auto.
    + rewrite (handleStreamResponse_ready trim vendor hook d service w Hp Hs).
      split; reflexivity.
Qed.

Lemma enabled_buttons_never_alert_witness :
  GoogleAIDemo.alerts
    (fst (GoogleAIDemo.handleGenerateResponse (fun s => s)
            (rejecting_vendor (Error "API key not valid")) 1
            (GoogleAIDemo.setPrompt "hi" GoogleAIDemo.initial_state)
            (snd (run (UseGoogleAI.initializeService_resume 1 None (Returned "k"))
                    initial_world))))
  = GoogleAIDemo.alerts (GoogleAIDemo.setPrompt "hi" GoogleAIDemo.initial_state).
Proof.
  apply (proj1 (enabled_buttons_never_alert (fun s => s)
                  (rejecting_vendor (Error "API key not valid")) 1
                  (GoogleAIDemo.setPrompt "hi" GoogleAIDemo.initial_state)
                  (snd (run (UseGoogleAI.initializeService_resume 1 None (Returned "k"))
                          initial_world))
                  (reach_resume 1 None (Returned "k") reach_start))).
  reflexivity.
Defined.

(* ================================================================== *)
(** ** What is known of every shared instance, and of catalog models *)

(** Every shared instance the hook's code ever stores was built by the
    hook's own initialization, hence without caller-supplied settings. *)
Lemma reachable_instance_form (w : World) :
  Reachable w ->
  forall service, googleAIService w = Some service ->
  exists key name, service = service_for key name.
Proof.
  induction 1 as [|hook env w _ IH|hook props pending w _ IH
                 |vendor hook prompt w _ IH|vendor hook prompt onChunk w _ IH|w _ IH];
    intros service Hs.
  - discriminate Hs.
  - apply IH. revert Hs.
    unfold run, UseGoogleAI.initializeService_begin, bind at 1, read_googleAIService.
    destruct (googleAIService w) eqn:Hw; cbn; rewrite ?Hw; auto.
  - revert Hs. unfold run. rewrite initializeService_resume_run.
    destruct pending as [key|e]; [destruct (truthy key)|]; cbn [snd googleAIService logged].
    + intros Hs. injection Hs as <-. eauto.
    + apply IH.
    + apply IH.
  - apply IH. rewrite <- Hs. symmetry.
    apply (shared_instance_kept vendor service hook prompt
             (fun _ => Returned tt) None w).
  - apply IH. rewrite <- Hs. symmetry.
    apply (shared_instance_kept vendor service hook prompt onChunk None w).
  - apply IH. rewrite <- Hs. symmetry.
    apply (shared_instance_kept (rejecting_vendor (Error "")) service 0 ""
             (fun _ => Returned tt) None w).
Qed.

(** X10. Through the hook, a chat session always matches the shared
    instance: in every world the hook's code can reach in which a shared
    instance exists, [startChatSession] resolves with a session on that
    instance's model handle, with an empty history, whose configuration is
    the one the handle itself was bound to; the call logs the vendor's
    [startChat] and nothing else. *)
Theorem hook_chat_session_matches_handle (w : World) (service : GoogleAIService) :
  Reachable w ->
  googleAIService w = Some service ->
  exists session,
    run UseGoogleAI.startChatSession w =
      (Returned session, logged w [ModelStartChat (model service) (Sdk.sessionParams session)])
    /\ Sdk.sessionModel session = model service
    /\ Sdk.history (Sdk.sessionParams session) = []
    /\ Sdk.chatGenerationConfig (Sdk.sessionParams session) =
       Sdk.generationConfig (Sdk.params (model service)).
Proof.
  intros Hreach Hs.
  destruct (reachable_instance_form w Hreach service Hs) as (key & name & ->).
  exists {| Sdk.sessionModel := model (service_for key name);
            Sdk.sessionParams :=
              {| Sdk.history := [];
                 Sdk.chatGenerationConfig :=
                   GoogleAI.getDefaultGenerationConfig
                     (modelName (service_for key name)) |} |}.
  split.
  - apply (proj2 (startChatSession_behaviour w) _ Hs).
  - repeat split.
Qed.

Lemma hook_chat_session_matches_handle_witness :
  exists session,
    run UseGoogleAI.startChatSession
      (snd (run (UseGoogleAI.initializeService_resume 1 None (Returned "k")) initial_world))
    = (Returned session,
       logged (snd (run (UseGoogleAI.initializeService_resume 1 None (Returned "k"))
                      initial_world))
         [ModelStartChat (model (service_for "k" "gemini-pro"))
            (Sdk.sessionParams session)])
    /\ Sdk.sessionModel session = model (service_for "k" "gemini-pro")
    /\ Sdk.history (Sdk.sessionParams session) = []
    /\ Sdk.chatGenerationConfig (Sdk.sessionParams session) =
       Sdk.generationConfig (Sdk.params (model (service_for "k" "gemini-pro"))).
Proof.
  apply (hook_chat_session_matches_handle
           (snd (run (UseGoogleAI.initializeService_resume 1 None (Returned "k"))
                   initial_world))
           (service_for "k" "gemini-pro")
           (reach_resume 1 None (Returned "k") reach_start)).
  reflexivity.
Defined.

(** X5. For every model of the catalog the default configuration follows
    the identifier's family: the identifiers named [GEMINI_20...] get the
    2.0 row, those named [GEMINI_15...] the 1.5 row, and the others the base
    configuration. *)
Theorem catalog_config_families (id v : string) :
  GoogleAIConfig.get GoogleAIConfig.GEMINI_MODELS id = Some v ->
  GoogleAI.getDefaultGenerationConfig v =
  if String.prefix "GEMINI_20" id then config_gemini_20
  else if String.prefix "GEMINI_15" id then config_gemini_15
  else GoogleAI.baseConfig.
Proof.
  unfold GoogleAIConfig.GEMINI_MODELS. cbn [GoogleAIConfig.get].
  repeat match goal with
         | |- context [String.eqb ?k id] =>
             destruct (String.eqb_spec k id) as [<-|_]
         end;
    intros H; try discriminate H; injection H as <-; reflexivity.
Qed.

Lemma catalog_config_families_witness :
  GoogleAI.getDefaultGenerationConfig "gemini-2.0-flash-lite" =
  if String.prefix "GEMINI_20" "GEMINI_20_FLASH_LITE" then config_gemini_20
  else if String.prefix "GEMINI_15" "GEMINI_20_FLASH_LITE" then config_gemini_15
  else GoogleAI.baseConfig.
Proof.
  apply (catalog_config_families "GEMINI_20_FLASH_LITE" "gemini-2.0-flash-lite").
  reflexivity.
Defined.

(** X17. On the models of the catalog, which are the only values the
    picker offers, the sample prompt and the banner agree: the image prompt
    is offered exactly with the vision banner and the story prompt exactly
    with the 2.0 banner. *)
Theorem catalog_sample_prompt_matches_banner (id : string) (d : GoogleAIDemo.State) :
  GoogleAIConfig.get GoogleAIConfig.GEMINI_MODELS id = Some (GoogleAIDemo.selectedModel d) ->
  (GoogleAIDemo.getSamplePrompt d =
     "Describe this image: [Note: Add image capability in your implementation]"
   <-> GoogleAIDemo.modelInfo (GoogleAIDemo.updateModelInfo d) = GoogleAIDemo.info_vision)
  /\ (GoogleAIDemo.getSamplePrompt d =
        "Write a short story about artificial intelligence in the year 2050. Include a plot twist at the end."
      <-> GoogleAIDemo.modelInfo (GoogleAIDemo.updateModelInfo d)
          = GoogleAIDemo.info_gemini_20).
Proof.
  unfold GoogleAIConfig.GEMINI_MODELS, GoogleAIDemo.getSamplePrompt,
    GoogleAIDemo.updateModelInfo.
  cbn [GoogleAIConfig.get GoogleAIDemo.modelInfo GoogleAIDemo.setModelInfo].
  repeat match goal with
         | |- context [String.eqb ?k id] =>
             destruct (String.eqb_spec k id) as [<-|_]
         end;
    intros H; try discriminate H; injection H as <-; cbn;
    split; split; intros H; try reflexivity; discriminate H.
Qed.

Lemma catalog_sample_prompt_matches_banner_witness :
  GoogleAIDemo.getSamplePrompt
    (GoogleAIDemo.handleModelChange "gemini-pro-vision" GoogleAIDemo.initial_state) =
    "Describe this image: [Note: Add image capability in your implementation]"
  <-> GoogleAIDemo.modelInfo
        (GoogleAIDemo.updateModelInfo
           (GoogleAIDemo.handleModelChange "gemini-pro-vision" GoogleAIDemo.initial_state))
      = GoogleAIDemo.info_vision.
Proof.
  apply (proj1 (catalog_sample_prompt_matches_banner "GEMINI_PRO_VISION"
                  (GoogleAIDemo.handleModelChange "gemini-pro-vision"
                     GoogleAIDemo.initial_state) eq_refl)).
Defined.

(** Outside the catalog the two cascades can disagree: a name holding both
    markers gets the 2.0 banner and the image prompt. *)
Lemma sample_prompt_banner_disagree :
  let d := GoogleAIDemo.handleModelChange "gemini-2.0-vision" GoogleAIDemo.initial_state in
  GoogleAIDemo.modelInfo (GoogleAIDemo.updateModelInfo d) = GoogleAIDemo.info_gemini_20
  /\ GoogleAIDemo.getSamplePrompt d =
     "Describe this image: [Note: Add image capability in your implementation]".
Proof. split; reflexivity. Qed.
